(** * Parallel task scheduler (agents/parallel_task_scheduler.py)

    A shallow embedding of the scheduler of the Droid CLI: the resource
    pool, the agent registry with its suitability score and metric
    updates, the task table with scheduling, dependency check, the
    per-tick drain and the retention pruning.

    Conventions of the embedding.
    - Python [int] is [Z]; Python [float] is an exact rational [Q]
      (rounding of binary floating point is not modelled; comparisons and
      the order of the operations are those of the source).
    - A [datetime] is a number of microseconds ([Z]); a function that reads
      the clock takes the instant [now] as an argument.
    - A raised exception is a value of [exn]; a function that can raise
      returns [Exc A]; a method that mutates its objects and can raise
      returns the state it leaves behind together with its outcome, since
      the writes done before a [raise] remain visible in Python.
    - A [dict] whose order of insertion is observed (the agent pool, the
      performance metrics) is an association list; the task table and the
      status index, which are only looked up, sized and pruned, are
      [gmap]s.
    - Task objects are shared between the task table, the priority queue
      and the batch of a tick: they live in a store ([objs]) and are
      named by their index there. *)

From Stdlib Require Import QArith Qminmax Qabs Qpower Lqa.
From stdpp Require Import base option list strings gmap pretty sorting.

Set Default Proof Using "Type".

(** ** Exceptions

    The exceptions the modelled code raises. [InvalidReference] is not one
    of Python's: it is the outcome of the model on a reference that names
    no object of the store, which no run produces. *)

Inductive exn : Type :=
| TypeError (msg : string)
| NameError (name : string)
| KeyError (key : string)
| AttributeError (attr : string)
| ZeroDivisionError
| InvalidReference.

Inductive Exc (A : Type) : Type :=
| Ok (a : A)
| Raise (e : exn).
Arguments Ok {A} a.
Arguments Raise {A} e.

#[global] Instance Exc_ret : MRet Exc := fun _ a => Ok a.
#[global] Instance Exc_bind : MBind Exc := fun _ _ f m =>
  match m with
  | Ok a => f a
  | Raise e => Raise e
  end.

(** ** Python dictionaries with observable insertion order *)

Definition dict (V : Type) : Type := list (string * V).

Fixpoint dict_get {V} (d : dict V) (k : string) : option V :=
  match d with
  | [] => None
  | (k', v) :: d' => if String.eqb k' k then Some v else dict_get d' k
  end.

(** [d.get(k, default)] *)
Definition dict_get_default {V} (d : dict V) (k : string) (default : V) : V :=
  match dict_get d k with
  | Some v => v
  | None => default
  end.

(** [d[k]] raises [KeyError] for a missing key. *)
Definition dict_item {V} (d : dict V) (k : string) : Exc V :=
  match dict_get d k with
  | Some v => Ok v
  | None => Raise (KeyError k)
  end.

(** [d[k] = v] keeps the position of an existing key and appends a new one. *)
Fixpoint dict_set {V} (d : dict V) (k : string) (v : V) : dict V :=
  match d with
  | [] => [(k, v)]
  | (k', v') :: d' =>
      if String.eqb k' k then (k', v) :: d' else (k', v') :: dict_set d' k v
  end.

Definition dict_values {V} (d : dict V) : list V := map snd d.

(** Truth value of a container: empty is false. *)
Definition truthy {A} (l : list A) : bool :=
  match l with
  | [] => false
  | _ :: _ => true
  end.

(** ** Numbers and time *)

Definition datetime : Type := Z.
Bind Scope Z_scope with datetime.

(** [(a - b).total_seconds()] *)
Definition total_seconds (a b : datetime) : Q := inject_Z (a - b) / 1000000.

(** True division [x / y]. *)
Definition py_div (x y : Q) : Exc Q :=
  if Qeq_bool y 0 then Raise ZeroDivisionError else Ok (x / y)%Q.

Definition Qlt_bool (x y : Q) : bool := negb (Qle_bool y x).

(** ** Data model *)

Inductive TaskStatus : Type :=
| PENDING
| RUNNING
| COMPLETED
| FAILED
| CANCELLED.

#[global] Instance TaskStatus_eq_dec : EqDecision TaskStatus.
Proof. solve_decision. Defined.

Record ParallelTask : Type := mkTask {
  task_id : string;
  task_type : string;
  command : string;
  args : list string;
  kwargs : dict string;
  priority : Z;
  status : TaskStatus;
  created_at : datetime;
  started_at : option datetime;
  completed_at : option datetime;
  result : option string;
  error : option string;
  dependencies : list string;
  max_wait_time : Z;
  resource_requirements : dict Q
}.

Definition set_status (st : TaskStatus) (t : ParallelTask) : ParallelTask :=
  mkTask (task_id t) (task_type t) (command t) (args t) (kwargs t) (priority t)
         st (created_at t) (started_at t) (completed_at t) (result t) (error t)
         (dependencies t) (max_wait_time t) (resource_requirements t).

Definition set_started_at (d : datetime) (t : ParallelTask) : ParallelTask :=
  mkTask (task_id t) (task_type t) (command t) (args t) (kwargs t) (priority t)
         (status t) (created_at t) (Some d) (completed_at t) (result t) (error t)
         (dependencies t) (max_wait_time t) (resource_requirements t).

Definition set_completed_at (d : datetime) (t : ParallelTask) : ParallelTask :=
  mkTask (task_id t) (task_type t) (command t) (args t) (kwargs t) (priority t)
         (status t) (created_at t) (started_at t) (Some d) (result t) (error t)
         (dependencies t) (max_wait_time t) (resource_requirements t).

Definition set_error (e : string) (t : ParallelTask) : ParallelTask :=
  mkTask (task_id t) (task_type t) (command t) (args t) (kwargs t) (priority t)
         (status t) (created_at t) (started_at t) (completed_at t) (result t) (Some e)
         (dependencies t) (max_wait_time t) (resource_requirements t).

Inductive AgentStatus : Type :=
| IDLE
| BUSY
| ERROR
| OFFLINE.

#[global] Instance AgentStatus_eq_dec : EqDecision AgentStatus.
Proof. solve_decision. Defined.

(** An entry of [task_history], the dictionary written by
    [update_agent_metrics]; ['success'] is read with [.get('success', False)]. *)
Record HistoryEntry : Type := mkEntry {
  h_timestamp : datetime;
  h_execution_time : Q;
  h_success : option bool;
  h_task_type : option string
}.

Record ParallelAgent : Type := mkAgent {
  agent_id : string;
  agent_type : string;
  agent_status : AgentStatus;
  current_task : option string;
  supported_task_types : list string;
  max_concurrent_tasks : Z;
  performance_metrics : dict Q;
  last_activity : datetime;
  task_history : list HistoryEntry;
  resource_usage : dict Q
}.

Definition default_metrics : dict Q :=
  [("response_time", 1); ("success_rate", 1); ("efficiency", 1)]%Q.

Definition default_resource_usage : dict Q :=
  [("cpu_percent", 0); ("memory_percent", 0); ("disk_io_percent", 0)]%Q.

(** The dataclass constructor followed by [__post_init__]: a field passed as
    [None] (or left to its [None] default) gets its default value. *)
Definition ParallelAgent_new (agent_id agent_type : string) (status : AgentStatus)
    (current_task : option string) (supported_task_types : option (list string))
    (max_concurrent_tasks : Z) (performance_metrics : option (dict Q))
    (last_activity : datetime) (task_history : option (list HistoryEntry))
    (resource_usage : option (dict Q)) : ParallelAgent :=
  mkAgent agent_id agent_type status current_task
    (default [] supported_task_types)
    max_concurrent_tasks
    (default default_metrics performance_metrics)
    last_activity
    (default [] task_history)
    (default default_resource_usage resource_usage).

(** ** ResourcePool *)

Record MemoryStats : Type := mkMem {
  mem_total : Q;
  mem_available : Q;
  mem_used : Q;
  mem_percent : Q
}.

Record ResourcePool : Type := mkPool {
  max_workers : Z;
  max_memory_percent : Q;
  available_workers : Z;
  allocated_memory : Q;
  memory_stats : MemoryStats
}.

(** [get_memory_stats]: the reading of [psutil.virtual_memory()], or zeros
    when psutil cannot be imported. *)
Definition get_memory_stats (psutil : option MemoryStats) : MemoryStats :=
  match psutil with
  | Some m => m
  | None => mkMem 0 0 0 0
  end.

(** [x or y] on integers. *)
Definition Z_or (x : option Z) (y : Z) : Z :=
  match x with
  | Some v => if (v =? 0)%Z then y else v
  | None => y
  end.

(** [ResourcePool.__init__(max_workers=None, max_memory_percent=80)];
    [cpu_count] is [os.cpu_count()]. *)
Definition ResourcePool_init (max_workers : option Z) (max_memory_percent : option Q)
    (cpu_count : option Z) (psutil : option MemoryStats) : ResourcePool :=
  let mw := Z_or max_workers (Z.min 32 (Z_or cpu_count 1 * 2)) in
  mkPool mw (default 80%Q max_memory_percent) mw 0 (get_memory_stats psutil).

Definition can_allocate_task (self : ResourcePool) (resource_requirements : dict Q)
    : Exc bool :=
  let memory_required := dict_get_default resource_requirements "memory_mb" 10%Q in
  if (available_workers self <=? 0)%Z then Ok false
  else
    u ← py_div (mem_used (memory_stats self)) (mem_total (memory_stats self));
    let memory_usage := (u * 100)%Q in
    m ← py_div (memory_required * 1024 * 1024)%Q (mem_total (memory_stats self));
    let projected_usage := (memory_usage + m * 100)%Q in
    Ok (Qle_bool projected_usage (max_memory_percent self)).

Definition with_available_workers (n : Z) (self : ResourcePool) : ResourcePool :=
  mkPool (max_workers self) (max_memory_percent self) n
         (allocated_memory self) (memory_stats self).

(** [allocate_resources]: the pool and the task after the call, and the
    returned flag. *)
Definition allocate_resources (self : ResourcePool) (task : ParallelTask)
    : ResourcePool * ParallelTask * bool :=
  if (0 <? available_workers self)%Z
  then (with_available_workers (available_workers self - 1) self,
        set_status RUNNING task, true)
  else (self, task, false).

Definition release_resources (self : ResourcePool) (task : ParallelTask)
    : ResourcePool * ParallelTask :=
  (with_available_workers (available_workers self + 1) self,
   if decide (status task = RUNNING) then set_status COMPLETED task else task).

(** ** Methods that mutate and can raise *)

(** The state a call leaves behind and its outcome. *)
Definition M (S A : Type) : Type := S → S * Exc A.

#[global] Instance M_ret {S} : MRet (M S) := λ _ a s, (s, Ok a).
#[global] Instance M_bind {S} : MBind (M S) := λ _ _ f m s,
  match m s with
  | (s', Ok a) => f a s'
  | (s', Raise e) => (s', Raise e)
  end.

Definition gets {S A} (f : S → A) : M S A := λ s, (s, Ok (f s)).
Definition modify {S} (f : S → S) : M S unit := λ s, (f s, Ok tt).
Definition lift_exc {S A} (x : Exc A) : M S A := λ s, (s, x).
Definition raise {S A} (e : exn) : M S A := λ s, (s, Raise e).

(** Reading a name that is bound neither in the function nor in the module. *)
Definition unbound_name {S A} (name : string) : M S A := raise (NameError name).

(** [try: body except Exception as e: handler e] *)
Definition try_except {S A} (body : M S A) (handler : exn → M S A) : M S A := λ s,
  match body s with
  | (s', Ok a) => (s', Ok a)
  | (s', Raise e) => handler e s'
  end.

(** [str(e)] *)
Definition exn_str (e : exn) : string :=
  match e with
  | TypeError msg => msg
  | NameError name => "name '" +:+ name +:+ "' is not defined"
  | KeyError key => "'" +:+ key +:+ "'"
  | AttributeError attr => attr
  | ZeroDivisionError => "division by zero"
  | InvalidReference => "invalid reference"
  end.

(** ** Agents: eligibility, suitability score, metric updates *)

Definition set_performance_metrics (m : dict Q) (a : ParallelAgent) : ParallelAgent :=
  mkAgent (agent_id a) (agent_type a) (agent_status a) (current_task a)
          (supported_task_types a) (max_concurrent_tasks a) m
          (last_activity a) (task_history a) (resource_usage a).

Definition set_task_history (h : list HistoryEntry) (a : ParallelAgent) : ParallelAgent :=
  mkAgent (agent_id a) (agent_type a) (agent_status a) (current_task a)
          (supported_task_types a) (max_concurrent_tasks a) (performance_metrics a)
          (last_activity a) h (resource_usage a).

Definition set_current_task (c : option string) (a : ParallelAgent) : ParallelAgent :=
  mkAgent (agent_id a) (agent_type a) (agent_status a) c
          (supported_task_types a) (max_concurrent_tasks a) (performance_metrics a)
          (last_activity a) (task_history a) (resource_usage a).

Definition set_agent_status (st : AgentStatus) (a : ParallelAgent) : ParallelAgent :=
  mkAgent (agent_id a) (agent_type a) st (current_task a)
          (supported_task_types a) (max_concurrent_tasks a) (performance_metrics a)
          (last_activity a) (task_history a) (resource_usage a).

(** [len(agent.current_task)]: the field holds [None] or a task id, and
    [len(None)] raises. *)
Definition len_current_task (agent : ParallelAgent) : Exc Z :=
  match current_task agent with
  | Some s => Ok (Z.of_nat (String.length s))
  | None => Raise (TypeError "object of type 'NoneType' has no len()")
  end.

(** The condition tested on each agent by [has_available_agent_for_task] and
    by [find_suitable_agent]; [and] evaluates from left to right and stops
    at the first false operand. *)
Definition eligible (agent : ParallelAgent) (task : ParallelTask) : Exc bool :=
  if decide (agent_status agent = IDLE) then
    if bool_decide (task_type task ∈ supported_task_types agent) then
      n ← len_current_task agent;
      Ok (n <? max_concurrent_tasks agent)%Z
    else Ok false
  else Ok false.

Fixpoint has_available_agent_for_task_loop (agents : dict ParallelAgent)
    (task : ParallelTask) : Exc bool :=
  match agents with
  | [] => Ok false
  | (_, agent) :: rest =>
      b ← eligible agent task;
      if b : bool then Ok true else has_available_agent_for_task_loop rest task
  end.

(** [task_history[-5:]] *)
Definition last5 {A} (l : list A) : list A := drop (length l - 5) l.

(** [sum(1 for task in recent_tasks if task.get('success', False))] *)
Definition count_success (l : list HistoryEntry) : nat :=
  length (List.filter (λ h, default false (h_success h)) l).

Definition calculate_agent_suitability_score (agent : ParallelAgent)
    (task : ParallelTask) : Exc Q :=
  let score := 0%Q in
  (* Task type match score *)
  let score :=
    if bool_decide (task_type task ∈ supported_task_types agent)
    then (score + 0.4)%Q else score in
  (* Agent performance score *)
  let score :=
    if truthy (performance_metrics agent) then
      let avg_performance :=
        if truthy (performance_metrics agent)
        then List.hd 0%Q (dict_values (performance_metrics agent))
        else 1.0%Q in
      (score + avg_performance * 0.3)%Q
    else score in
  (* Load balancing score *)
  n ← len_current_task agent;
  current_load ← py_div (inject_Z n) (Qmax (inject_Z (max_concurrent_tasks agent)) 1.0);
  let availability_score := (1.0 - current_load)%Q in
  let score := (score + availability_score * 0.2)%Q in
  (* Recent performance score *)
  if truthy (task_history agent) then
    let recent_tasks := last5 (task_history agent) in
    success_rate ← py_div (inject_Z (Z.of_nat (count_success recent_tasks)))
                          (inject_Z (Z.of_nat (length recent_tasks)));
    Ok (score + success_rate * 0.1)%Q
  else Ok score.

(** The loop of [find_suitable_agent] over [agent_pool.items()]. *)
Fixpoint suitable_agents (agents : dict ParallelAgent) (task : ParallelTask)
    : Exc (list (Q * ParallelAgent)) :=
  match agents with
  | [] => Ok []
  | (_, agent) :: rest =>
      b ← eligible agent task;
      if b : bool then
        score ← calculate_agent_suitability_score agent task;
        l ← suitable_agents rest task;
        Ok ((score, agent) :: l)
      else suitable_agents rest task
  end.

(** [list.sort(key=lambda x: x[0], reverse=True)]: a stable sort by
    decreasing score; entries of equal score keep their order. *)
Fixpoint insert_desc (x : Q * ParallelAgent) (l : list (Q * ParallelAgent))
    : list (Q * ParallelAgent) :=
  match l with
  | [] => [x]
  | y :: l' => if Qle_bool (fst y) (fst x) then x :: y :: l' else y :: insert_desc x l'
  end.

Definition sort_desc (l : list (Q * ParallelAgent)) : list (Q * ParallelAgent) :=
  foldr insert_desc [] l.

(** The order of the sorted list: no later entry has a greater score. *)
Definition score_ge (x y : Q * ParallelAgent) : Prop := (fst y <= fst x)%Q.

Definition find_suitable_agent (agents : dict ParallelAgent) (task : ParallelTask)
    : Exc (option ParallelAgent) :=
  l ← suitable_agents agents task;
  if truthy l then Ok (snd <$> head (sort_desc l)) else Ok None.

Definition set_metric (k : string) (v : Q) : M ParallelAgent unit :=
  modify (λ a, set_performance_metrics (dict_set (performance_metrics a) k v) a).

Definition metric (k : string) : M ParallelAgent Q :=
  λ a, (a, dict_item (performance_metrics a) k).

(** [agent.current_task and agent.current_task[0]] *)
Definition first_of_current_task (a : ParallelAgent) : option string :=
  match current_task a with
  | None => None
  | Some EmptyString => Some EmptyString
  | Some (String c _) => Some (String c EmptyString)
  end.

(** [task_history[-50:]] *)
Definition last50 {A} (l : list A) : list A := drop (length l - 50) l.

Definition update_agent_metrics (execution_time : Q) (success : bool) (now : datetime)
    : M ParallelAgent unit :=
  pm ← gets performance_metrics;
  (if truthy pm then mret tt else modify (set_performance_metrics default_metrics));;
  (* Update response time *)
  old_response_time ← metric "response_time";
  (if Qlt_bool 0 old_response_time
   then set_metric "response_time" (old_response_time * 0.8 + execution_time * 0.2)%Q
   else mret tt);;
  (* Update success rate *)
  old_success_rate ← metric "success_rate";
  (if Qlt_bool 0 old_success_rate
   then set_metric "success_rate"
          (old_success_rate * 0.9 + (if success then 1.0 else 0.0) * 0.1)%Q
   else mret tt);;
  (* Update efficiency: the name response_time is not bound in the function *)
  efficiency ← (if Qlt_bool 0 old_response_time
                then (response_time ← unbound_name "response_time";
                      d ← lift_exc (py_div response_time 1.0);
                      lift_exc (py_div execution_time d))
                else mret 1.0%Q);
  old_efficiency ← metric "efficiency";
  set_metric "efficiency" (old_efficiency * 0.8 + efficiency * 0.2)%Q;;
  (* Update task history *)
  a ← gets id;
  modify (set_task_history
            (task_history a ++
             [mkEntry now execution_time (Some success) (first_of_current_task a)]));;
  (* Keep only recent history *)
  h ← gets task_history;
  if (50 <? Z.of_nat (length h))%Z then modify (set_task_history (last50 h)) else mret tt.

(** ** The scheduler state *)

Record ScheduleStats : Type := mkStats {
  total_scheduled : Z;
  total_completed : Z;
  total_failed : Z;
  average_execution_time : Q;
  parallelism_efficiency : Q
}.

(** [objs] is the store of task objects; [tasks] maps a task id to the
    object it names, and an entry of [task_queue] is the pair
    [(priority, task)] with the task given by reference. *)
Record ParallelTaskScheduler : Type := mkSched {
  objs : list ParallelTask;
  tasks : gmap string nat;
  task_status_stats : gmap string TaskStatus;
  agent_pool : dict ParallelAgent;
  task_queue : list (Z * nat);
  resource_pool : ResourcePool;
  schedule_stats : ScheduleStats
}.

Definition set_objs (f : list ParallelTask → list ParallelTask)
    (s : ParallelTaskScheduler) : ParallelTaskScheduler :=
  mkSched (f (objs s)) (tasks s) (task_status_stats s) (agent_pool s)
          (task_queue s) (resource_pool s) (schedule_stats s).

Definition set_tasks (f : gmap string nat → gmap string nat)
    (s : ParallelTaskScheduler) : ParallelTaskScheduler :=
  mkSched (objs s) (f (tasks s)) (task_status_stats s) (agent_pool s)
          (task_queue s) (resource_pool s) (schedule_stats s).

Definition set_task_status_stats (f : gmap string TaskStatus → gmap string TaskStatus)
    (s : ParallelTaskScheduler) : ParallelTaskScheduler :=
  mkSched (objs s) (tasks s) (f (task_status_stats s)) (agent_pool s)
          (task_queue s) (resource_pool s) (schedule_stats s).

Definition set_agent_pool (p : dict ParallelAgent)
    (s : ParallelTaskScheduler) : ParallelTaskScheduler :=
  mkSched (objs s) (tasks s) (task_status_stats s) p
          (task_queue s) (resource_pool s) (schedule_stats s).

Definition set_task_queue (q : list (Z * nat))
    (s : ParallelTaskScheduler) : ParallelTaskScheduler :=
  mkSched (objs s) (tasks s) (task_status_stats s) (agent_pool s)
          q (resource_pool s) (schedule_stats s).

Definition set_resource_pool (p : ResourcePool)
    (s : ParallelTaskScheduler) : ParallelTaskScheduler :=
  mkSched (objs s) (tasks s) (task_status_stats s) (agent_pool s)
          (task_queue s) p (schedule_stats s).

Definition set_schedule_stats (st : ScheduleStats)
    (s : ParallelTaskScheduler) : ParallelTaskScheduler :=
  mkSched (objs s) (tasks s) (task_status_stats s) (agent_pool s)
          (task_queue s) (resource_pool s) st.

(** Reading the object behind a reference. Every reference of a run names
    an object of the store; on a state where one does not, the model stops
    with [InvalidReference]. *)
Definition get_task (task : nat) : M ParallelTaskScheduler ParallelTask := λ s,
  match objs s !! task with
  | Some t => (s, Ok t)
  | None => (s, Raise InvalidReference)
  end.

Definition put_task (task : nat) (t : ParallelTask) : M ParallelTaskScheduler unit :=
  modify (set_objs (λ l, <[task := t]> l)).

Definition modify_task (task : nat) (f : ParallelTask → ParallelTask)
    : M ParallelTaskScheduler unit :=
  t ← get_task task; put_task task (f t).

(** [self.tasks.get(task_id)] *)
Definition tasks_get (s : ParallelTaskScheduler) (id : string) : option ParallelTask :=
  r ← tasks s !! id; objs s !! r.

(** ** The priority queue

    [queue.PriorityQueue] returns the least entry first, comparing the
    entries [(priority, task)] as tuples: by priority, and for equal
    priorities by the task objects, for which [ParallelTask] defines no
    order. The queue is kept as a list in increasing order. *)

Definition entry_lt (a b : Z * nat) : Exc bool :=
  if (a.1 <? b.1)%Z then Ok true
  else if (b.1 <? a.1)%Z then Ok false
  else if decide (a.2 = b.2) then Ok false
  else Raise (TypeError
    "'<' not supported between instances of 'ParallelTask' and 'ParallelTask'").

Fixpoint queue_insert (e : Z * nat) (q : list (Z * nat)) : Exc (list (Z * nat)) :=
  match q with
  | [] => Ok [e]
  | x :: q' =>
      b ← entry_lt e x;
      if b : bool then Ok (e :: x :: q')
      else (r ← queue_insert e q'; Ok (x :: r))
  end.

Definition queue_put (e : Z * nat) : M ParallelTaskScheduler unit := λ s,
  match queue_insert e (task_queue s) with
  | Ok q => (set_task_queue q s, Ok tt)
  | Raise err => (s, Raise err)
  end.

(** ** Registration and scheduling *)

(** The registration record: ['agent_id'] is read with [agent_config[...]],
    the other keys with [.get]. *)
Record AgentConfig : Type := mkAgentConfig {
  cfg_agent_id : string;
  cfg_agent_type : option string;
  cfg_supported_tasks : option (list string);
  cfg_max_concurrent : option Z;
  cfg_performance_metrics : option (dict Q)
}.

(** [register_agent]. The constructor call names neither [current_task],
    [task_history] nor [resource_usage]; they are read as [None]. *)
Definition register_agent (agent_config : AgentConfig) (now : datetime)
    : M ParallelTaskScheduler string :=
  let agent_id := cfg_agent_id agent_config in
  let agent :=
    ParallelAgent_new agent_id
      (default "unknown" (cfg_agent_type agent_config))
      IDLE
      None
      (Some (default [] (cfg_supported_tasks agent_config)))
      (default 1%Z (cfg_max_concurrent agent_config))
      (Some (default [] (cfg_performance_metrics agent_config)))
      now None None in
  p ← gets agent_pool;
  modify (set_agent_pool (dict_set p agent_id agent));;
  mret agent_id.

Definition predefined_agents : list AgentConfig :=
  [ mkAgentConfig "file_operations" (Some "file_system")
      (Some ["file_operations"; "directory_management"; "path_operations"])
      (Some 3%Z)
      (Some [("response_time", 0.5); ("success_rate", 0.9); ("efficiency", 0.85)]%Q);
    mkAgentConfig "code_generator" (Some "code_generation")
      (Some ["code_generation"; "code_analysis"; "code_optimization"])
      (Some 2%Z)
      (Some [("response_time", 2.0); ("success_rate", 0.8); ("efficiency", 0.75)]%Q);
    mkAgentConfig "tool_executor" (Some "tool_execution")
      (Some ["tool_execute"; "command_execution"; "process_management"])
      (Some 3%Z)
      (Some [("response_time", 1.5); ("success_rate", 0.85); ("efficiency", 0.8)]%Q);
    mkAgentConfig "agent_interceptor" (Some "task_orchestration")
      (Some ["task_filtering"; "task_routing"; "parallel_coordination"])
      (Some 5%Z)
      (Some [("response_time", 0.8); ("success_rate", 0.9); ("efficiency", 0.9)]%Q) ].

Fixpoint register_all (l : list AgentConfig) (now : datetime)
    : M ParallelTaskScheduler unit :=
  match l with
  | [] => mret tt
  | c :: l' => register_agent c now;; register_all l' now
  end.

Definition register_predefined_agents (now : datetime) : M ParallelTaskScheduler unit :=
  register_all predefined_agents now.

(** [ParallelTaskScheduler.__init__] *)
Definition ParallelTaskScheduler_init (cpu_count : option Z) (psutil : option MemoryStats)
    (now : datetime) : ParallelTaskScheduler :=
  fst (register_predefined_agents now
         (mkSched [] ∅ ∅ [] [] (ResourcePool_init None None cpu_count psutil)
                  (mkStats 0 0 0 0 0))).

(** The task submission record, every key of which is read with [.get]. *)
Record TaskData : Type := mkTaskData {
  td_task_type : option string;
  td_command : option string;
  td_args : option (list string);
  td_kwargs : option (dict string);
  td_priority : option Z;
  td_dependencies : option (list string);
  td_max_wait_time : option Z;
  td_resource_requirements : option (dict Q)
}.

(** The dataclass constructor followed by [__post_init__]. *)
Definition ParallelTask_new (task_id task_type command : string) (args : list string)
    (kwargs : dict string) (priority : Z) (status : TaskStatus) (created_at : datetime)
    (dependencies : option (list string)) (max_wait_time : Z)
    (resource_requirements : option (dict Q)) : ParallelTask :=
  mkTask task_id task_type command args kwargs priority status created_at
         None None None None
         (default [] dependencies) max_wait_time (default [] resource_requirements).

Section Scheduling.

(** [strftime('%Y%m%d_%H%M%S')] of an instant given in whole seconds. *)
Variable strftime_YmdHMS : Z → string.

(** [f"task_{datetime.now().strftime('%Y%m%d_%H%M%S')}_{len(self.tasks)}"] *)
Definition new_task_id (now : datetime) (len_tasks : nat) : string :=
  "task_" +:+ strftime_YmdHMS (now `div` 1000000)%Z +:+ "_" +:+ pretty len_tasks.

Definition schedule_task (task_data : TaskData) (now : datetime)
    : M ParallelTaskScheduler string :=
  n ← gets (λ s, size (tasks s));
  let task_id := new_task_id now n in
  let task :=
    ParallelTask_new task_id
      (default "unknown" (td_task_type task_data))
      (default EmptyString (td_command task_data))
      (default [] (td_args task_data))
      (default [] (td_kwargs task_data))
      (default 0%Z (td_priority task_data))
      PENDING
      now
      (Some (default [] (td_dependencies task_data)))
      (default 604800%Z (td_max_wait_time task_data))
      (Some (default [] (td_resource_requirements task_data))) in
  r ← gets (λ s, length (objs s));
  modify (set_objs (λ l, l ++ [task]));;
  modify (set_tasks (λ m, <[task_id := r]> m));;
  modify (set_task_status_stats (λ m, <[task_id := status task]> m));;
  modify (λ s, set_schedule_stats
                 (mkStats (total_scheduled (schedule_stats s) + 1)
                          (total_completed (schedule_stats s))
                          (total_failed (schedule_stats s))
                          (average_execution_time (schedule_stats s))
                          (parallelism_efficiency (schedule_stats s))) s);;
  (* Add to priority queue *)
  let priority := (- priority task)%Z in
  queue_put (priority, r);;
  mret task_id.

End Scheduling.

(** ** Dependencies *)

(** [TaskStatus.SUCCESS]: the enumeration has no member of that name. *)
Definition TaskStatus_SUCCESS : Exc TaskStatus := Raise (AttributeError "SUCCESS").

Fixpoint are_dependencies_met_loop (s : ParallelTaskScheduler) (deps : list string)
    : Exc bool :=
  match deps with
  | [] => Ok true
  | dep_id :: rest =>
      match tasks_get s dep_id with
      | None => Ok false
      | Some dep_task =>
          success ← TaskStatus_SUCCESS;
          if bool_decide (status dep_task ∈ [COMPLETED; success])
          then are_dependencies_met_loop s rest
          else Ok false
      end
  end.

Definition are_dependencies_met (s : ParallelTaskScheduler) (task : ParallelTask)
    : Exc bool :=
  are_dependencies_met_loop s (dependencies task).

(** ** Execution *)

(** [execute_task]. The try block marks the task RUNNING, stamps
    [started_at], and then reads the name [task_id], which is bound neither
    in the method nor in the module: the statement raises [NameError] and
    the rest of the block is not reached. The handler marks the task FAILED
    and reads the same name in its log message, so the exception leaves the
    method. *)
Definition execute_task (task : nat) (now : datetime)
    : M ParallelTaskScheduler (bool * string) :=
  try_except
    ((* Update task status *)
     modify_task task (set_status RUNNING);;
     modify_task task (set_started_at now);;
     unbound_name "task_id")
    (λ e,
       modify_task task (set_status FAILED);;
       modify_task task (set_error (exn_str e));;
       modify_task task (set_completed_at now);;
       unbound_name "task_id").

(** [self.executor.submit(f, task)]: the call runs on a worker and its
    outcome, exception included, stays in the future. The worker writes
    to its own task object only, and the tick waits for every future
    before it releases, so the call is run to its end at submission. *)
Definition submit {A} (call : M ParallelTaskScheduler A) : M ParallelTaskScheduler unit :=
  λ s, (fst (call s), Ok tt).

(** The loop of [update_agent_status_after_task] over [agent_pool.values()]:
    the agents after the loop, and its outcome. *)
Fixpoint update_agents_after_task (agents : dict ParallelAgent) (task : ParallelTask)
    (now : datetime) : dict ParallelAgent * Exc unit :=
  match agents with
  | [] => ([], Ok tt)
  | (k, agent) :: rest =>
      if decide (current_task agent = Some (task_id task)) then
        let agent := set_agent_status IDLE (set_current_task None agent) in
        match started_at task, completed_at task with
        | Some started, Some completed =>
            let execution_time := total_seconds completed started in
            match update_agent_metrics execution_time
                    (bool_decide (status task = COMPLETED)) now agent with
            | (agent', Ok _) =>
                let '(rest', r) := update_agents_after_task rest task now in
                ((k, agent') :: rest', r)
            | (agent', Raise e) => ((k, agent') :: rest, Raise e)
            end
        | _, _ =>
            let '(rest', r) := update_agents_after_task rest task now in
            ((k, agent) :: rest', r)
        end
      else
        let '(rest', r) := update_agents_after_task rest task now in
        ((k, agent) :: rest', r)
  end.

Definition update_agent_status_after_task (task : nat) (now : datetime)
    : M ParallelTaskScheduler unit :=
  t ← get_task task;
  p ← gets agent_pool;
  let '(p', r) := update_agents_after_task p t now in
  modify (set_agent_pool p');;
  lift_exc r.

(** ** One tick: [process_ready_tasks] *)

(** The drain loop; [q] is the queue at the head of the iteration. *)
Fixpoint drain (q : list (Z * nat)) (ready_tasks : list nat)
    : M ParallelTaskScheduler (list nat) :=
  match q with
  | [] => mret ready_tasks
  | (priority, task) :: q' =>
      modify (set_task_queue q');;
      t ← get_task task;
      pool ← gets resource_pool;
      b ← lift_exc (can_allocate_task pool (resource_requirements t));
      if b : bool then drain q' (ready_tasks ++ [task])
      else
        (* Put back in queue and wait for resources *)
        queue_put (priority, task);;
        mret ready_tasks
  end.

(** [self.resource_pool.allocate_resources(task)] on the shared objects. *)
Definition allocate (task : nat) : M ParallelTaskScheduler bool :=
  t ← get_task task;
  pool ← gets resource_pool;
  let '(pool', t', b) := allocate_resources pool t in
  modify (set_resource_pool pool');;
  put_task task t';;
  mret b.

(** [self.resource_pool.release_resources(task)] on the shared objects. *)
Definition release (task : nat) : M ParallelTaskScheduler unit :=
  t ← get_task task;
  pool ← gets resource_pool;
  let '(pool', t') := release_resources pool t in
  modify (set_resource_pool pool');;
  put_task task t'.

Fixpoint dispatch (ready_tasks : list nat) (now : datetime)
    : M ParallelTaskScheduler unit :=
  match ready_tasks with
  | [] => mret tt
  | task :: rest =>
      b ← allocate task;
      (if b : bool then submit (execute_task task now) else mret tt);;
      dispatch rest now
  end.

Fixpoint release_all (ready_tasks : list nat) (now : datetime)
    : M ParallelTaskScheduler unit :=
  match ready_tasks with
  | [] => mret tt
  | task :: rest =>
      release task;;
      (* Update agent status if agent was used *)
      update_agent_status_after_task task now;;
      release_all rest now
  end.

(** [process_ready_tasks]. Between the two loops the method waits for the
    futures; no future has an attribute [_task_id], so [task_id] stays
    [None] there and no result is read. *)
Definition process_ready_tasks (now : datetime) : M ParallelTaskScheduler unit :=
  q ← gets task_queue;
  ready_tasks ← drain q [];
  if truthy ready_tasks then
    dispatch ready_tasks now;;
    release_all ready_tasks now
  else mret tt.

(** ** Retention pruning: [cleanup_completed_tasks] *)

Definition max_age_hours : Z := 24.

(** The condition under which the loop appends a task id to
    [tasks_to_remove]. *)
Definition expired (current_time : datetime) (task : ParallelTask) : bool :=
  match completed_at task with
  | Some completed =>
      Qlt_bool (inject_Z (max_age_hours * 3600)) (total_seconds current_time completed)
      && bool_decide (status task ∈ [COMPLETED; FAILED])
  | None => false
  end.

Definition tasks_to_remove (s : ParallelTaskScheduler) (current_time : datetime)
    : list string :=
  omap (λ kv : string * nat,
          match objs s !! kv.2 with
          | Some task => if expired current_time task then Some kv.1 else None
          | None => None
          end)
       (map_to_list (tasks s)).

Definition remove_task (s : ParallelTaskScheduler) (task_id : string)
    : ParallelTaskScheduler :=
  let s := set_tasks (delete task_id) s in
  if bool_decide (is_Some (task_status_stats s !! task_id))
  then set_task_status_stats (delete task_id) s
  else s.

Definition cleanup_completed_tasks (current_time : datetime) (s : ParallelTaskScheduler)
    : ParallelTaskScheduler :=
  foldl remove_task s (tasks_to_remove s current_time).

(** ** Repeated metric updates *)

(** The agent after a sequence of [update_agent_metrics] calls, each given
    by its execution time, its success flag and the instant of the call;
    a call that raises leaves the writes it made. *)
Definition update_all (calls : list (Q * bool * datetime)) (agent : ParallelAgent)
    : ParallelAgent :=
  foldl (λ a c, fst (update_agent_metrics c.1.1 c.1.2 c.2 a)) agent calls.

(** ** Specifications of mutating methods

    [triple P m Q R]: from a state in [P], the call [m] ends in a state in
    [Q a] when it returns [a], and in a state in [R] when it raises. *)
Definition triple {S A} (P : S → Prop) (m : M S A) (Q : A → S → Prop) (R : S → Prop)
    : Prop :=
  ∀ s, P s →
    match m s with
    | (s', Ok a) => Q a s'
    | (s', Raise _) => R s'
    end.

(** The metric [k] of an agent is stored and satisfies [I]. *)
Definition metric_in (k : string) (I : Q → Prop) (a : ParallelAgent) : Prop :=
  ∃ v, dict_get (performance_metrics a) k = Some v ∧ I v.

Definition unit_interval (v : Q) : Prop := (0 <= v <= 1)%Q.

(** ** The statements of the specification

    Definitions that follow the words of the specification, to be compared
    with the functions above. *)


(** Terminal states of the glossary: Completed, Failed or Cancelled. *)
Definition terminal (st : TaskStatus) : Prop :=
  st = COMPLETED ∨ st = FAILED ∨ st = CANCELLED.

(** The retention window of 24 hours, in microseconds. *)
Definition retention_window : Z := 24 * 3600 * 1000000.

(** Retention pruning as the specification words it: a terminal task
    completed more than 24 hours ago is gone from the task table and from
    the status index after the prune step. *)
Definition prunes_every_terminal_task (s : ParallelTaskScheduler) (now : datetime)
    : Prop :=
  ∀ id task completed,
    tasks_get s id = Some task →
    terminal (status task) →
    completed_at task = Some completed →
    (completed + retention_window < now)%Z →
    tasks (cleanup_completed_tasks now s) !! id = None ∧
    task_status_stats (cleanup_completed_tasks now s) !! id = None.

(** The lenient reading of a dependency: Completed, or without a record. *)
Definition satisfied_leniently (s : ParallelTaskScheduler) (dep_id : string) : Prop :=
  match tasks_get s dep_id with
  | Some dep_task => status dep_task = COMPLETED
  | None => True
  end.

(** The suitability score as the specification gives it. *)
Definition specified_score (agent : ParallelAgent) (current_assigned : Z) : Q :=
  (0.4
   + 0.3 * List.hd 1.0 (dict_values (performance_metrics agent))
   + 0.2 * (1 - inject_Z current_assigned / inject_Z (max_concurrent_tasks agent))
   + 0.1 * (if truthy (task_history agent)
            then inject_Z (Z.of_nat (count_success (last5 (task_history agent))))
                 / inject_Z (Z.of_nat (length (last5 (task_history agent))))
            else 0))%Q.

(** ** Concrete runs *)

Section Runs.
Local Open Scope Z_scope.

(** A reading of [psutil.virtual_memory()]: 16 GB in total, 4 GB used. *)
Definition memory_reading : MemoryStats :=
  mkMem 16000000000 12000000000 4000000000 25.

(** [ParallelTaskScheduler()] on a machine with one CPU: two workers. *)
Definition fresh_scheduler : ParallelTaskScheduler :=
  ParallelTaskScheduler_init (Some 1%Z) (Some memory_reading) 0.

(** A submission record with a task type, a priority and dependencies. *)
Definition submission (task_type : string) (priority : Z) (deps : option (list string))
    : TaskData :=
  mkTaskData (Some task_type) None None None (Some priority) deps None None.

(** Twenty-four and twenty-five hours, in microseconds. *)
Definition twenty_four_hours : Z := 24 * 3600 * 1000000.
Definition twenty_five_hours : Z := 25 * 3600 * 1000000.

(** A task object with a status and a completion instant. *)
Definition finished_task (id : string) (st : TaskStatus) (completed : datetime)
    : ParallelTask :=
  set_completed_at completed
    (ParallelTask_new id "shell" EmptyString [] [] 0 st 0 None 604800 None).

(** A scheduler whose table holds a Cancelled task, a Completed task and a
    Failed task that ended at instant 0, and a Completed task that ended
    twenty-four hours later. *)
Definition aged_scheduler : ParallelTaskScheduler :=
  set_task_status_stats
    (λ _, {[ "task_a" := CANCELLED; "task_b" := COMPLETED;
             "task_c" := FAILED; "task_d" := COMPLETED ]})
    (set_tasks
       (λ _, {[ "task_a" := 0%nat; "task_b" := 1%nat;
                "task_c" := 2%nat; "task_d" := 3%nat ]})
       (set_objs
          (λ _, [ finished_task "task_a" CANCELLED 0;
                  finished_task "task_b" COMPLETED 0;
                  finished_task "task_c" FAILED 0;
                  finished_task "task_d" COMPLETED twenty_four_hours ])
          fresh_scheduler)).

(** A task that waits for a task id nobody scheduled. *)
Definition blocked_task : ParallelTask :=
  ParallelTask_new "task_x" "shell" EmptyString [] [] 0 PENDING 0
    (Some ["no_such_task"]) 604800 None.

(** A task of a type the predefined agent [file_operations] supports. *)
Definition file_task : ParallelTask :=
  ParallelTask_new "task_y" "file_operations" EmptyString [] [] 0 PENDING 0 None 604800 None.

(** An idle agent with no metrics, no history and an empty current task. *)
Definition bare_agent : ParallelAgent :=
  ParallelAgent_new "helper" "unknown" IDLE (Some EmptyString) (Some ["file_operations"]) 1
    (Some []) 0 None None.


(** A resource pool with two free workers and the default ceiling. *)
Definition sample_pool : ResourcePool :=
  ResourcePool_init (Some 2%Z) None None (Some memory_reading).

(** An agent built with every optional field left out. *)
Definition plain_agent : ParallelAgent :=
  ParallelAgent_new "worker" "unknown" IDLE None None 1 None 0 None None.

(** An agent whose stored response time is 0. *)
Definition stalled_agent : ParallelAgent :=
  ParallelAgent_new "worker" "unknown" IDLE None None 1
    (Some [("response_time", 0); ("success_rate", 0.5); ("efficiency", 1)]%Q)
    0 None None.

End Runs.

(** ** Further methods *)


(** [has_available_agent_for_task] *)
Definition has_available_agent_for_task (s : ParallelTaskScheduler) (task : ParallelTask)
    : Exc bool :=
  has_available_agent_for_task_loop (agent_pool s) task.

(** The loop of [wait_for_dependencies] over [task.dependencies]. The
    polling loop between the execution of a dependency and the test of its
    status sleeps and reads the status, and writes nothing. *)
Fixpoint wait_for_dependencies_loop (deps : list string) (task : nat) (now : datetime)
    : M ParallelTaskScheduler bool :=
  match deps with
  | [] => mret true
  | dep_id :: rest =>
      table ← gets tasks;
      match table !! dep_id with
      | Some dep =>
          dep_task ← get_task dep;
          if decide (status dep_task = PENDING) then
            (* Start the dependency task *)
            r ← execute_task dep now;
            if negb (fst r) then mret false
            else
              dep_task ← get_task dep;
              if decide (status dep_task = FAILED) then mret false
              else
                (* Check if dependencies are now met *)
                t ← get_task task;
                s ← gets id;
                met ← lift_exc (are_dependencies_met s t);
                if negb met then mret false
                else wait_for_dependencies_loop rest task now
          else wait_for_dependencies_loop rest task now
      | None =>
          (* Dependency not found, assume completed *)
          wait_for_dependencies_loop rest task now
      end
  end.

Definition wait_for_dependencies (task : nat) (now : datetime)
    : M ParallelTaskScheduler bool :=
  t ← get_task task;
  wait_for_dependencies_loop (dependencies t) task now.

(** The dictionary returned by [get_agent_pool_status]. *)
Record AgentPoolStatus : Type := mkPoolStatus {
  total_agents : Z;
  active_agents : Z;
  idle_agents : Z;
  total_capacity : Z;
  status_max_workers : Z;
  status_available_workers : Z
}.

Definition count_status (st : AgentStatus) (agents : dict ParallelAgent) : Z :=
  Z.of_nat (length (List.filter (λ kv, bool_decide (agent_status kv.2 = st)) agents)).

Definition get_agent_pool_status (s : ParallelTaskScheduler) : AgentPoolStatus :=
  mkPoolStatus
    (Z.of_nat (length (agent_pool s)))
    (count_status BUSY (agent_pool s))
    (count_status IDLE (agent_pool s))
    (foldr (λ kv acc, max_concurrent_tasks kv.2 + acc)%Z 0%Z (agent_pool s))
    (max_workers (resource_pool s))
    (available_workers (resource_pool s)).

Section Convenience.

Variable strftime_YmdHMS : Z → string.

(** The module-level [execute_parallel_task], on the scheduler that
    [get_parallel_scheduler] hands out. *)
Definition execute_parallel_task (task_data : TaskData) (now : datetime)
    : M ParallelTaskScheduler (bool * string) :=
  task_id ← schedule_task strftime_YmdHMS task_data now;
  if negb (String.eqb task_id EmptyString) then
    table ← gets tasks;
    match table !! task_id with
    | Some task => execute_task task now
    | None => mret (false, "Task scheduling failed")
    end
  else mret (false, "Task scheduling failed").

End Convenience.


(** ** Invariants of mutating methods *)

(** [preserves I m]: the call [m] keeps [I], whether it returns or raises. *)
Definition preserves {S A} (I : S → Prop) (m : M S A) : Prop :=
  triple I m (λ _, I) I.

(** No agent of the pool holds the task id. *)
Definition unheld (task_id : string) (agents : dict ParallelAgent) : Prop :=
  Forall (λ kv : string * ParallelAgent, current_task kv.2 ≠ Some task_id) agents.

(** The queue holds the entries in strictly increasing order of priority:
    no two entries are compared on their tasks. *)
Definition strictly_sorted (q : list (Z * nat)) : Prop :=
  StronglySorted (λ a b : Z * nat, (a.1 < b.1)%Z) q.

(** A predicate on scheduler states that does not depend on the task
    objects, the queue or the agent pool. *)
Definition pool_frame (I : ParallelTaskScheduler → Prop) : Prop :=
  (∀ s f, I s → I (set_objs f s)) ∧
  (∀ s q, I s → I (set_task_queue q s)) ∧
  (∀ s p, I s → I (set_agent_pool p s)).

(** A predicate that does not depend on the resource pool either. *)
Definition table_frame (I : ParallelTaskScheduler → Prop) : Prop :=
  pool_frame I ∧ (∀ s p, I s → I (set_resource_pool p s)).

(** The task object [execute_task] leaves behind. *)
Definition failed_by_execute_task (now : datetime) (t : ParallelTask) : ParallelTask :=
  set_completed_at now
    (set_error "name 'task_id' is not defined"
       (set_status FAILED (set_started_at now (set_status RUNNING t)))).

(** A property of agents that does not depend on the metrics and on the
    history. *)
Definition agent_frame (I : ParallelAgent → Prop) : Prop :=
  (∀ a pm, I a → I (set_performance_metrics pm a)) ∧
  (∀ a h, I a → I (set_task_history h a)).

(** What [wait_for_dependencies] takes as settled: a dependency id without
    a record, or with a record that is not Pending. *)
Definition taken_as_settled (s : ParallelTaskScheduler) (dep_id : string) : Prop :=
  match tasks s !! dep_id with
  | Some r => ∃ dep_task, objs s !! r = Some dep_task ∧ status dep_task ≠ PENDING
  | None => True
  end.

(** ** Further concrete runs *)

(** A scheduler with two free workers whose queue holds three tasks. *)
Definition crowded_scheduler : ParallelTaskScheduler :=
  set_task_queue [(-3, 0%nat); (-2, 1%nat); (-1, 2%nat)]%Z
    (set_objs (λ _, [blocked_task; file_task; blocked_task]) fresh_scheduler).

(** A scheduler whose queue holds one task, which was Cancelled. *)
Definition cancelled_in_queue : ParallelTaskScheduler :=
  set_task_queue [(0%Z, 0%nat)]
    (set_objs (λ _, [set_status CANCELLED file_task]) fresh_scheduler).

(** A rendering of the clock for concrete runs: the count of seconds. *)
Definition seconds_stamp (seconds : Z) : string := pretty seconds.

(** An agent whose metrics map holds a success rate only. *)
Definition partial_agent : ParallelAgent :=
  ParallelAgent_new "worker" "unknown" IDLE None None 1
    (Some [("success_rate", 0.5)]%Q) 0%Z None None.

(** Two idle agents with the fields of [bare_agent], registered as
    [helper] and, after it, as [second]. *)
Definition two_helpers : dict ParallelAgent :=
  [("helper", bare_agent);
   ("second", ParallelAgent_new "second" "unknown" IDLE (Some EmptyString)
                (Some ["file_operations"]) 1 (Some []) 0%Z None None)].

(** A task that waits for a task id nobody scheduled and for [file_task]. *)
Definition dependent_task : ParallelTask :=
  ParallelTask_new "task_z" "shell" EmptyString [] [] 0 PENDING 0%Z
    (Some ["no_such_task"; "task_y"]) 604800 None.

(** A scheduler whose table holds [file_task], Pending, and a task that
    waits for it. *)
Definition chained_scheduler : ParallelTaskScheduler :=
  set_tasks (λ _, {[ "task_y" := 0%nat; "task_z" := 1%nat ]})
    (set_objs (λ _, [file_task; dependent_task]) fresh_scheduler).

(** [crowded_scheduler] with every worker taken. *)
Definition saturated_scheduler : ParallelTaskScheduler :=
  set_resource_pool (with_available_workers 0 (resource_pool crowded_scheduler))
    crowded_scheduler.

(** * Properties *)

#[local] Set Warnings "-clear-no-such-hyp".

(** ** Dictionaries *)

Lemma dict_get_set_eq {V} (d : dict V) k v : dict_get (dict_set d k v) k = Some v.
Proof.
  induction d as [|[k' v'] d IH]; simpl.
  - by rewrite String.eqb_refl.
  - destruct (String.eqb k' k) eqn:E; simpl; rewrite E; done.
Qed.

Lemma dict_get_set_ne {V} (d : dict V) k k' v :
  k ≠ k' → dict_get (dict_set d k v) k' = dict_get d k'.
Proof.
  intros Hne. induction d as [|[k0 v0] d IH]; simpl.
  - destruct (String.eqb_spec k k'); done.
  - destruct (String.eqb_spec k0 k) as [->|]; simpl.
    + destruct (String.eqb_spec k k'); done.
    + by rewrite IH.
Qed.

Lemma dict_get_truthy {V} (d : dict V) k v : dict_get d k = Some v → truthy d = true.
Proof. by destruct d. Qed.

(** ** Arithmetic of the embedding *)

Lemma py_div_nonzero (x y : Q) : ¬ (y == 0)%Q → py_div x y = Ok (x / y)%Q.
Proof.
  intros Hy. unfold py_div.
  destruct (Qeq_bool y 0) eqn:E; [|done].
  apply Qeq_bool_iff in E. contradiction.
Qed.

Lemma py_div_zero (x y : Q) : (y == 0)%Q → py_div x y = Raise ZeroDivisionError.
Proof. intros Hy. unfold py_div. apply Qeq_bool_iff in Hy. by rewrite Hy. Qed.

Lemma Qlt_bool_iff (x y : Q) : Qlt_bool x y = true ↔ (x < y)%Q.
Proof.
  unfold Qlt_bool. rewrite negb_true_iff, <- not_true_iff_false, Qle_bool_iff.
  split; [apply Qnot_le_lt | apply Qlt_not_le].
Qed.

(** ** Rules for triples *)

Section triples.
Context {S : Type}.
Implicit Types (P R : S → Prop).

Lemma triple_ret {A} (a : A) P (Q : A → S → Prop) R :
  (∀ s, P s → Q a s) → triple P (mret a) Q R.
Proof. intros H s HP. by apply H. Qed.

Lemma triple_bind {A B} P (Q' : A → S → Prop) (Q : B → S → Prop) R
    (m : M S A) (f : A → M S B) :
  triple P m Q' R → (∀ a, triple (Q' a) (f a) Q R) → triple P (m ≫= f) Q R.
Proof.
  intros Hm Hf s HP. specialize (Hm s HP).
  unfold mbind, M_bind. destruct (m s) as [s' [a|e]]; [by apply Hf | done].
Qed.

Lemma triple_gets {A} (g : S → A) P R : triple P (gets g) (λ a s, a = g s ∧ P s) R.
Proof. by intros s H. Qed.

Lemma triple_modify (g : S → S) P (Q : unit → S → Prop) R :
  (∀ s, P s → Q tt (g s)) → triple P (modify g) Q R.
Proof. intros H s HP. by apply H. Qed.

Lemma triple_raise {A} e P (Q : A → S → Prop) R :
  (∀ s, P s → R s) → triple P (raise e) Q R.
Proof. intros H s HP. by apply H. Qed.

Lemma triple_if {A} (b : bool) P (Q : A → S → Prop) R (m1 m2 : M S A) :
  (b = true → triple P m1 Q R) → (b = false → triple P m2 Q R) →
  triple P (if b then m1 else m2) Q R.
Proof. destruct b; auto. Qed.

(** An invariant of a call holds in the state the call leaves, whatever
    its outcome. *)
Lemma triple_invariant {A} (I : S → Prop) (m : M S A) s :
  triple I m (λ _, I) I → I s → I (fst (m s)).
Proof. intros Hm Hs. specialize (Hm s Hs). by destruct (m s) as [s' [a|e]]. Qed.

End triples.

Lemma triple_metric k (P : ParallelAgent → Prop) :
  triple P (metric k) (λ v a, dict_get (performance_metrics a) k = Some v ∧ P a) P.
Proof.
  intros a HP. unfold metric, dict_item.
  destruct (dict_get (performance_metrics a) k); auto.
Qed.

Lemma triple_set_metric k v (P : ParallelAgent → Prop) (Q : unit → ParallelAgent → Prop) R :
  (∀ a, P a → Q tt (set_performance_metrics (dict_set (performance_metrics a) k v) a)) →
  triple P (set_metric k v) Q R.
Proof. intros H. by apply triple_modify. Qed.

(** Writing a metric other than [k] keeps what is known of [k]. *)
Lemma metric_in_set_other k k' v I a :
  k' ≠ k → metric_in k I a →
  metric_in k I (set_performance_metrics (dict_set (performance_metrics a) k' v) a).
Proof.
  intros Hne (w & Hw & HI). exists w. split; [|done].
  simpl. by rewrite dict_get_set_ne.
Qed.

Lemma metric_in_set_same k v (I : Q → Prop) a :
  I v → metric_in k I (set_performance_metrics (dict_set (performance_metrics a) k v) a).
Proof. intros HI. exists v. split; [|done]. simpl. by rewrite dict_get_set_eq. Qed.

(** ** Admission: [can_allocate_task] *)

(** With no worker free the answer is [False] before any memory figure is
    read. *)
Lemma can_allocate_task_no_worker (self : ResourcePool) (r : dict Q) :
  (available_workers self <= 0)%Z → can_allocate_task self r = Ok false.
Proof.
  intros H. unfold can_allocate_task.
  by destruct (Z.leb_spec (available_workers self) 0); [|lia].
Qed.

(** With a worker free and a total memory of zero (the reading used when
    psutil is missing) the division raises. *)
Lemma can_allocate_task_zero_total (self : ResourcePool) (r : dict Q) :
  (0 < available_workers self)%Z → (mem_total (memory_stats self) == 0)%Q →
  can_allocate_task self r = Raise ZeroDivisionError.
Proof.
  intros Hw Ht. unfold can_allocate_task.
  destruct (Z.leb_spec (available_workers self) 0); [lia|].
  rewrite !py_div_zero by done. reflexivity.
Qed.



(** ** Metric updates: [update_agent_metrics] *)

(** The stored [success_rate] keeps any property that the smoothing step
    preserves on positive values. *)
Lemma update_agent_metrics_success_rate (I : Q → Prop) (execution_time : Q)
    (success : bool) (now : datetime) :
  (∀ old, I old → (0 < old)%Q →
     I (old * 0.9 + (if success then 1.0 else 0.0) * 0.1)%Q) →
  triple (metric_in "success_rate" I)
         (update_agent_metrics execution_time success now)
         (λ _, metric_in "success_rate" I)
         (metric_in "success_rate" I).
Proof.
  intros Hstep. unfold update_agent_metrics.
  eapply triple_bind; [apply triple_gets|]. intros pm.
  eapply triple_bind.
  { apply triple_if with (Q := λ _, metric_in "success_rate" I); intros Hb.
    - apply triple_ret. by intros a [_ ?].
    - intros a [Hpm (v & Hv & _)]. apply dict_get_truthy in Hv. congruence. }
  intros [].
  eapply triple_bind; [apply triple_metric|]. intros old_response_time.
  eapply triple_bind.
  { apply triple_if with (Q := λ _, metric_in "success_rate" I); intros Hb.
    - apply triple_set_metric. intros a [_ ?]. by apply metric_in_set_other.
    - apply triple_ret. by intros a [_ ?]. }
  intros [].
  eapply triple_bind; [apply triple_metric|]. intros old_success_rate.
  eapply triple_bind.
  { apply triple_if with (Q := λ _, metric_in "success_rate" I); intros Hb.
    - apply triple_set_metric. intros a [Hold (v & Hv & HI)].
      apply metric_in_set_same. apply Hstep; [congruence|].
      by apply Qlt_bool_iff.
    - apply triple_ret. by intros a [_ ?]. }
  intros [].
  eapply triple_bind.
  { apply triple_if with (Q := λ _, metric_in "success_rate" I); intros Hb.
    - eapply triple_bind; [by apply triple_raise with (Q := λ _ _, False)|].
      by intros ? ? [].
    - by apply triple_ret. }
  intros efficiency.
  eapply triple_bind; [apply triple_metric|]. intros old_efficiency.
  eapply triple_bind.
  { apply triple_set_metric with (Q := λ _, metric_in "success_rate" I).
    intros a [_ ?]. by apply metric_in_set_other. }
  intros [].
  eapply triple_bind; [apply triple_gets|]. intros a0.
  eapply triple_bind.
  { apply triple_modify with (Q := λ _, metric_in "success_rate" I).
    by intros a [_ ?]. }
  intros [].
  eapply triple_bind; [apply triple_gets|]. intros h.
  apply triple_if; intros _.
  - apply triple_modify. by intros a [_ ?].
  - apply triple_ret. by intros a [_ ?].
Qed.

(** The same for the stored [response_time]. *)
Lemma update_agent_metrics_response_time (I : Q → Prop) (execution_time : Q)
    (success : bool) (now : datetime) :
  (∀ old, I old → (0 < old)%Q → I (old * 0.8 + execution_time * 0.2)%Q) →
  triple (metric_in "response_time" I)
         (update_agent_metrics execution_time success now)
         (λ _, metric_in "response_time" I)
         (metric_in "response_time" I).
Proof.
  intros Hstep. unfold update_agent_metrics.
  eapply triple_bind; [apply triple_gets|]. intros pm.
  eapply triple_bind.
  { apply triple_if with (Q := λ _, metric_in "response_time" I); intros Hb.
    - apply triple_ret. by intros a [_ ?].
    - intros a [Hpm (v & Hv & _)]. apply dict_get_truthy in Hv. congruence. }
  intros [].
  eapply triple_bind; [apply triple_metric|]. intros old_response_time.
  eapply triple_bind.
  { apply triple_if with (Q := λ _, metric_in "response_time" I); intros Hb.
    - apply triple_set_metric. intros a [Hold (v & Hv & HI)].
      apply metric_in_set_same. apply Hstep; [congruence|].
      by apply Qlt_bool_iff.
    - apply triple_ret. by intros a [_ ?]. }
  intros [].
  eapply triple_bind; [apply triple_metric|]. intros old_success_rate.
  eapply triple_bind.
  { apply triple_if with (Q := λ _, metric_in "response_time" I); intros Hb.
    - apply triple_set_metric. intros a [_ ?]. by apply metric_in_set_other.
    - apply triple_ret. by intros a [_ ?]. }
  intros [].
  eapply triple_bind.
  { apply triple_if with (Q := λ _, metric_in "response_time" I); intros Hb.
    - eapply triple_bind; [by apply triple_raise with (Q := λ _ _, False)|].
      by intros ? ? [].
    - by apply triple_ret. }
  intros efficiency.
  eapply triple_bind; [apply triple_metric|]. intros old_efficiency.
  eapply triple_bind.
  { apply triple_set_metric with (Q := λ _, metric_in "response_time" I).
    intros a [_ ?]. by apply metric_in_set_other. }
  intros [].
  eapply triple_bind; [apply triple_gets|]. intros a0.
  eapply triple_bind.
  { apply triple_modify with (Q := λ _, metric_in "response_time" I).
    by intros a [_ ?]. }
  intros [].
  eapply triple_bind; [apply triple_gets|]. intros h.
  apply triple_if; intros _.
  - apply triple_modify. by intros a [_ ?].
  - apply triple_ret. by intros a [_ ?].
Qed.

(** One smoothing step of the success rate stays in the unit interval. *)
Lemma ema_success_bound (old : Q) (success : bool) :
  unit_interval old →
  unit_interval (old * 0.9 + (if success then 1.0 else 0.0) * 0.1)%Q.
Proof. unfold unit_interval. destruct success; intros [? ?]; split; lra. Qed.

Lemma update_all_success_rate (calls : list (Q * bool * datetime)) agent :
  metric_in "success_rate" unit_interval agent →
  metric_in "success_rate" unit_interval (update_all calls agent).
Proof.
  revert agent. induction calls as [|[[et success] now] calls IH]; intros agent H.
  - done.
  - apply IH. simpl.
    apply (triple_invariant (metric_in "success_rate" unit_interval)); [|done].
    apply update_agent_metrics_success_rate. intros old Hold _.
    by apply ema_success_bound.
Qed.

(** C7. For every agent whose stored [success_rate] lies in [0, 1], after
    any finite sequence of [update_agent_metrics] calls, with arbitrary
    execution times and success flags, the stored [success_rate] still lies
    in [0, 1]. *)
Theorem success_rate_stays_in_unit_interval (agent : ParallelAgent)
    (calls : list (Q * bool * datetime)) (v : Q) :
  dict_get (performance_metrics agent) "success_rate" = Some v →
  (0 <= v <= 1)%Q →
  ∃ v', dict_get (performance_metrics (update_all calls agent)) "success_rate" = Some v'
        ∧ (0 <= v' <= 1)%Q.
Proof.
  intros Hv Hb. apply (update_all_success_rate calls agent). by exists v.
Qed.

(** C10. A stored [response_time] of 0, and likewise a stored
    [success_rate] of 0, is left as it is by every call of
    [update_agent_metrics], whatever the execution time and the success
    flag: each of the two updates is applied only to a value that is
    strictly positive. *)
Theorem update_agent_metrics_zero_absorbing (agent : ParallelAgent)
    (execution_time : Q) (success : bool) (now : datetime) (k : string) (v : Q) :
  k = "response_time" ∨ k = "success_rate" →
  dict_get (performance_metrics agent) k = Some v →
  (v == 0)%Q →
  dict_get (performance_metrics
              (fst (update_agent_metrics execution_time success now agent))) k
  = Some v.
Proof.
  intros Hk Hv H0.
  assert (metric_in k (λ x, x = v)
            (fst (update_agent_metrics execution_time success now agent)))
    as (w & Hw & ->); [|done].
  apply (triple_invariant (metric_in k (λ x, x = v))); [|by exists v].
  destruct Hk as [-> | ->].
  - apply update_agent_metrics_response_time. intros old -> Hpos.
    rewrite H0 in Hpos. by apply Qlt_irrefl in Hpos.
  - apply update_agent_metrics_success_rate. intros old -> Hpos.
    rewrite H0 in Hpos. by apply Qlt_irrefl in Hpos.
Qed.

Lemma success_rate_stays_in_unit_interval_witness :
  dict_get (performance_metrics plain_agent) "success_rate" = Some 1%Q ∧
  ∃ v', dict_get (performance_metrics
                    (update_all [(2, false, 0%Z); (0.5, true, 1%Z)]%Q plain_agent))
                 "success_rate" = Some v'
        ∧ (0 <= v' <= 1)%Q.
Proof.
  split; [reflexivity|].
  apply (success_rate_stays_in_unit_interval plain_agent _ 1%Q); [reflexivity|].
  split; discriminate.
Defined.

Lemma update_agent_metrics_zero_absorbing_witness :
  dict_get (performance_metrics stalled_agent) "response_time" = Some 0%Q ∧
  dict_get (performance_metrics (fst (update_agent_metrics 3 true 0%Z stalled_agent)))
           "response_time" = Some 0%Q.
Proof.
  split; [reflexivity|].
  apply (update_agent_metrics_zero_absorbing stalled_agent 3 true 0%Z "response_time" 0%Q);
    [by left | reflexivity | reflexivity].
Defined.

(** ** Retention pruning: [cleanup_completed_tasks] *)

Lemma remove_task_objs s id : objs (remove_task s id) = objs s.
Proof. unfold remove_task. by case_bool_decide. Qed.

Lemma remove_task_tasks s id : tasks (remove_task s id) = delete id (tasks s).
Proof. unfold remove_task. by case_bool_decide. Qed.

Lemma remove_task_stats s id k :
  task_status_stats (remove_task s id) !! k =
  if decide (id = k) then None else task_status_stats s !! k.
Proof.
  unfold remove_task. case_bool_decide as H; simpl.
  - rewrite lookup_delete. by repeat case_decide.
  - case_decide as E; [|done]. subst. simpl in H.
    destruct (task_status_stats s !! k) eqn:E; [|done]. exfalso. apply H. eauto.
Qed.

Lemma cleanup_objs now s : objs (cleanup_completed_tasks now s) = objs s.
Proof.
  unfold cleanup_completed_tasks. generalize (tasks_to_remove s now). intros l.
  revert s. induction l as [|id l IH]; intros s; simpl; [done|].
  by rewrite IH, remove_task_objs.
Qed.

Lemma foldl_remove_task_tasks l s k :
  tasks (foldl remove_task s l) !! k =
  if decide (k ∈ l) then None else tasks s !! k.
Proof.
  revert s. induction l as [|id l IH]; intros s.
  - destruct (decide (k ∈ [])) as [H|]; [by apply elem_of_nil in H|done].
  - change (foldl remove_task s (id :: l)) with (foldl remove_task (remove_task s id) l).
    rewrite IH, remove_task_tasks, lookup_delete.
    destruct (decide (k ∈ l)), (decide (id = k)), (decide (k ∈ id :: l)); set_solver.
Qed.

Lemma foldl_remove_task_stats l s k :
  task_status_stats (foldl remove_task s l) !! k =
  if decide (k ∈ l) then None else task_status_stats s !! k.
Proof.
  revert s. induction l as [|id l IH]; intros s.
  - destruct (decide (k ∈ [])) as [H|]; [by apply elem_of_nil in H|done].
  - change (foldl remove_task s (id :: l)) with (foldl remove_task (remove_task s id) l).
    rewrite IH, remove_task_stats.
    destruct (decide (k ∈ l)), (decide (id = k)), (decide (k ∈ id :: l)); set_solver.
Qed.

Lemma elem_of_tasks_to_remove s now id :
  id ∈ tasks_to_remove s now ↔
  ∃ r task, tasks s !! id = Some r ∧ objs s !! r = Some task ∧ expired now task = true.
Proof.
  unfold tasks_to_remove. rewrite list_elem_of_omap. split.
  - intros ([k r] & Hin & H). apply elem_of_map_to_list in Hin. simpl in H.
    destruct (objs s !! r) as [task|] eqn:Ho; [|done].
    destruct (expired now task) eqn:He; [|done]. simplify_eq. eauto.
  - intros (r & task & Ht & Ho & He). exists (id, r). split.
    + by apply elem_of_map_to_list.
    + simpl. by rewrite Ho, He.
Qed.

(** The test of the loop, in integers: Completed or Failed, and completed
    more than 24 hours before the current time. *)
Lemma expired_iff now task :
  expired now task = true ↔
  ∃ completed, completed_at task = Some completed ∧
    (completed + retention_window < now)%Z ∧
    (status task = COMPLETED ∨ status task = FAILED).
Proof.
  unfold expired. destruct (completed_at task) as [c|]; [|naive_solver].
  rewrite andb_true_iff, bool_decide_eq_true, Qlt_bool_iff.
  assert ((inject_Z (max_age_hours * 3600) < total_seconds now c)%Q
          ↔ (c + retention_window < now)%Z) as ->.
  { unfold total_seconds, max_age_hours, retention_window.
    unfold Qlt, Qdiv, Qmult, Qinv, inject_Z. simpl. lia. }
  split.
  - intros [? H]. exists c. repeat split; [done|]. set_solver.
  - intros (c' & [= <-] & ? & ?). split; [done|]. set_solver.
Qed.

(** C8, as amended. After one run of [cleanup_completed_tasks], a task of
    the table whose status is Completed or Failed and whose [completed_at]
    is more than 24 hours before the current time is absent from the task
    table and from the status index; every other task of the table (one
    whose [completed_at] is unset or within the 24 hours, or whose status
    is Pending, Running or Cancelled) is still present, with its record and
    its entry of the status index unchanged. *)
Theorem cleanup_completed_tasks_spec (s : ParallelTaskScheduler) (now : datetime)
    (id : string) (r : nat) (task : ParallelTask) :
  tasks s !! id = Some r →
  objs s !! r = Some task →
  let s' := cleanup_completed_tasks now s in
  ((status task = COMPLETED ∨ status task = FAILED) →
   (∃ completed, completed_at task = Some completed ∧
                 (completed + retention_window < now)%Z) →
   tasks s' !! id = None ∧ task_status_stats s' !! id = None) ∧
  ((status task ≠ COMPLETED ∧ status task ≠ FAILED) ∨
   completed_at task = None ∨
   (∃ completed, completed_at task = Some completed ∧
                 (now <= completed + retention_window)%Z) →
   tasks_get s' id = Some task ∧
   task_status_stats s' !! id = task_status_stats s !! id).
Proof.
  intros Ht Ho s'. subst s'. unfold tasks_get, cleanup_completed_tasks.
  rewrite foldl_remove_task_tasks, foldl_remove_task_stats.
  fold (cleanup_completed_tasks now s). rewrite cleanup_objs.
  split.
  - intros Hst (c & Hc & Hold).
    destruct (decide (id ∈ tasks_to_remove s now)) as [|Hn]; [done|].
    exfalso. apply Hn, elem_of_tasks_to_remove. exists r, task.
    repeat split; [done..|]. apply expired_iff. eauto.
  - intros Hkeep.
    destruct (decide (id ∈ tasks_to_remove s now)) as [Hin|Hn].
    + exfalso. apply elem_of_tasks_to_remove in Hin as (r' & task' & Ht' & Ho' & He).
      simplify_eq. apply expired_iff in He as (c & Hc & Hold & Hst).
      destruct Hkeep as [[? ?]|[?|(c' & ? & ?)]]; [naive_solver|congruence|].
      simplify_eq. lia.
    + rewrite Ht. simpl. by rewrite Ho.
Qed.

Lemma cleanup_completed_tasks_spec_witness :
  tasks aged_scheduler !! "task_d" = Some 3%nat ∧
  objs aged_scheduler !! 3%nat
    = Some (finished_task "task_d" COMPLETED twenty_four_hours) ∧
  tasks_get (cleanup_completed_tasks twenty_five_hours aged_scheduler) "task_d"
    = Some (finished_task "task_d" COMPLETED twenty_four_hours).
Proof.
  assert (tasks aged_scheduler !! "task_d" = Some 3%nat) as Ht by (by vm_compute).
  assert (objs aged_scheduler !! 3%nat
          = Some (finished_task "task_d" COMPLETED twenty_four_hours)) as Ho
    by reflexivity.
  split; [exact Ht|]. split; [exact Ho|].
  apply (cleanup_completed_tasks_spec aged_scheduler twenty_five_hours
           "task_d" 3%nat _ Ht Ho).
  right. right. exists twenty_four_hours. split; [reflexivity|].
  by vm_compute.
Defined.

(** C8, as stated, fails: the Cancelled task of [aged_scheduler] ended 25
    hours before the prune step and is still in the task table after it. *)
Lemma cancelled_task_is_not_pruned :
  ¬ prunes_every_terminal_task aged_scheduler twenty_five_hours.
Proof.
  intros H.
  destruct (H "task_a" (finished_task "task_a" CANCELLED 0) 0%Z) as [Hgone _].
  - by vm_compute.
  - right. by right.
  - reflexivity.
  - by vm_compute.
  - revert Hgone. by vm_compute.
Qed.

(** ** Dependencies: [are_dependencies_met] *)

(** A first dependency id without a record makes the check answer
    [False]. *)
Lemma are_dependencies_met_missing_first s task dep_id rest :
  dependencies task = dep_id :: rest → tasks_get s dep_id = None →
  are_dependencies_met s task = Ok false.
Proof.
  intros Hdeps Hnone. unfold are_dependencies_met. rewrite Hdeps.
  cbn [are_dependencies_met_loop]. by rewrite Hnone.
Qed.

(** C3, as stated, fails: the only dependency of [blocked_task] has no
    record in the task table, so it is satisfied in the lenient reading,
    and the check does not return [True]. *)
Lemma missing_dependency_is_unmet :
  dependencies blocked_task = ["no_such_task"] ∧
  tasks_get fresh_scheduler "no_such_task" = None ∧
  are_dependencies_met fresh_scheduler blocked_task = Ok false ∧
  ¬ (are_dependencies_met fresh_scheduler blocked_task = Ok true ↔
     Forall (satisfied_leniently fresh_scheduler) (dependencies blocked_task)).
Proof.
  assert (tasks_get fresh_scheduler "no_such_task" = None) as Hget by (by vm_compute).
  assert (are_dependencies_met fresh_scheduler blocked_task = Ok false) as Hmet
    by (by vm_compute).
  split; [reflexivity|]. split; [exact Hget|]. split; [exact Hmet|].
  intros [_ H]. rewrite Hmet in H. enough (Ok false = Ok true) by done.
  apply H. apply Forall_cons. split; [|by apply Forall_nil].
  unfold satisfied_leniently. by rewrite Hget.
Qed.

(** C3, as amended. [are_dependencies_met] returns [True] for a task
    without dependencies; whenever it returns [True], every dependency id
    of the task resolves to a record in Completed status; and a dependency
    id without a record counts as unmet: the check never returns [True]
    for a task that has one, and returns [False] when the first dependency
    id is one. *)
Theorem are_dependencies_met_strict (s : ParallelTaskScheduler) (task : ParallelTask) :
  (dependencies task = [] → are_dependencies_met s task = Ok true) ∧
  (are_dependencies_met s task = Ok true →
   ∀ dep_id, dep_id ∈ dependencies task →
     ∃ dep_task, tasks_get s dep_id = Some dep_task ∧ status dep_task = COMPLETED) ∧
  (∀ dep_id, dep_id ∈ dependencies task → tasks_get s dep_id = None →
     are_dependencies_met s task ≠ Ok true) ∧
  (∀ dep_id rest, dependencies task = dep_id :: rest → tasks_get s dep_id = None →
     are_dependencies_met s task = Ok false).
Proof.
  unfold are_dependencies_met.
  assert (∀ deps, are_dependencies_met_loop s deps = Ok true →
            ∀ dep_id, dep_id ∈ deps →
              ∃ dep_task, tasks_get s dep_id = Some dep_task
                          ∧ status dep_task = COMPLETED) as Hsound.
  { induction deps as [|d deps IH]; intros Hok dep_id Hin.
    - by apply elem_of_nil in Hin.
    - simpl in Hok. destruct (tasks_get s d) as [dep_task|] eqn:Hd; [|done].
      unfold TaskStatus_SUCCESS in Hok. cbn in Hok. done. }
  split; [by intros ->|]. split; [apply Hsound|]. split.
  - intros dep_id Hin Hnone Hok.
    destruct (Hsound _ Hok dep_id Hin) as (dep_task & Hsome & _). congruence.
  - intros dep_id rest -> Hnone. simpl. by rewrite Hnone.
Qed.

Lemma are_dependencies_met_strict_witness :
  dependencies blocked_task = ["no_such_task"] ∧
  tasks_get fresh_scheduler "no_such_task" = None ∧
  are_dependencies_met fresh_scheduler blocked_task = Ok false.
Proof.
  assert (tasks_get fresh_scheduler "no_such_task" = None) as Hget by (by vm_compute).
  split; [reflexivity|]. split; [exact Hget|].
  exact (proj2 (proj2 (proj2 (are_dependencies_met_strict fresh_scheduler blocked_task)))
           "no_such_task" [] eq_refl Hget).
Defined.

(** ** Registration: [register_agent] *)



(** ** Agent selection: [find_suitable_agent] *)

(** The test of eligibility answers [True] only for an Idle agent that
    supports the task type and whose current task is a string shorter than
    [max_concurrent_tasks]. *)
Lemma eligible_true agent task :
  eligible agent task = Ok true →
  agent_status agent = IDLE ∧
  task_type task ∈ supported_task_types agent ∧
  ∃ id, current_task agent = Some id ∧
        (Z.of_nat (String.length id) < max_concurrent_tasks agent)%Z.
Proof.
  unfold eligible, len_current_task. intros H.
  destruct (decide (agent_status agent = IDLE)); [|done].
  case_bool_decide; [|done].
  destruct (current_task agent) as [id|]; [|done].
  cbn in H. injection H as H. apply Z.ltb_lt in H. eauto.
Qed.

Lemma last5_nonempty {A} (l : list A) : l ≠ [] → (0 < length (last5 l))%nat.
Proof.
  intros H. unfold last5. rewrite length_drop.
  destruct l; [done|]. simpl. lia.
Qed.

(** For an eligible agent with a non-empty metrics map the computed score
    is the specified one. *)
Lemma calculate_agent_suitability_score_formula agent task id :
  eligible agent task = Ok true →
  current_task agent = Some id →
  performance_metrics agent ≠ [] →
  ∃ score, calculate_agent_suitability_score agent task = Ok score ∧
           (score == specified_score agent (Z.of_nat (String.length id)))%Q.
Proof.
  intros Hel Hcur Hpm.
  apply eligible_true in Hel as (_ & Hsup & id' & Hcur' & Hlt).
  rewrite Hcur in Hcur'. injection Hcur' as <-.
  unfold calculate_agent_suitability_score, specified_score, len_current_task.
  rewrite Hcur, bool_decide_true by done.
  destruct (performance_metrics agent) as [|[k v] pm] eqn:Hm; [done|].
  cbn [truthy dict_values map snd List.hd mbind Exc_bind].
  assert (1 <= inject_Z (max_concurrent_tasks agent))%Q as Hmax.
  { change 1%Q with (inject_Z 1). rewrite <- Zle_Qle. lia. }
  assert (Qmax (inject_Z (max_concurrent_tasks agent)) 1.0
          == inject_Z (max_concurrent_tasks agent))%Q as Hqmax.
  { apply Q.max_l. lra. }
  rewrite (py_div_nonzero _ (Qmax (inject_Z (max_concurrent_tasks agent)) 1.0)).
  2:{ pose proof (Q.le_max_r (inject_Z (max_concurrent_tasks agent)) 1.0) as Hle.
      intros H0. apply (Qlt_irrefl 0). eapply Qlt_le_trans; [|rewrite <- H0; exact Hle].
      reflexivity. }
  cbn [mbind Exc_bind].
  destruct (task_history agent) as [|h hs] eqn:Hh.
  - cbn [truthy]. eexists. split; [reflexivity|]. rewrite Hqmax. field. lra.
  - cbn [truthy].
    assert (¬ inject_Z (Z.of_nat (length (last5 (h :: hs)))) == 0)%Q as Hlen.
    { pose proof (last5_nonempty (h :: hs) ltac:(done)) as Hn.
      change 0%Q with (inject_Z 0). rewrite inject_Z_injective. lia. }
    rewrite py_div_nonzero by exact Hlen.
    cbn [mbind Exc_bind]. eexists. split; [reflexivity|]. rewrite Hqmax. field.
    split; [exact Hlen | lra].
Qed.

Lemma elem_of_insert_desc x y l : y ∈ insert_desc x l ↔ y = x ∨ y ∈ l.
Proof.
  induction l as [|z l IH]; simpl.
  - set_solver.
  - destruct (Qle_bool (fst z) (fst x)); set_solver.
Qed.

Lemma elem_of_sort_desc y l : y ∈ sort_desc l ↔ y ∈ l.
Proof.
  induction l as [|x l IH]; simpl; [done|].
  rewrite elem_of_insert_desc. set_solver.
Qed.

Lemma insert_desc_sorted x l :
  StronglySorted score_ge l → StronglySorted score_ge (insert_desc x l).
Proof.
  induction 1 as [|z l Hl IH Hz]; simpl.
  - repeat constructor.
  - destruct (Qle_bool (fst z) (fst x)) eqn:E.
    + apply Qle_bool_iff in E. constructor; [by constructor|].
      constructor; [done|].
      eapply Forall_impl; [exact Hz|]. unfold score_ge. intros w Hw.
      by eapply Qle_trans.
    + assert (fst x <= fst z)%Q as Hxz.
      { apply Qlt_le_weak, Qnot_le_lt. intros Hle.
        apply Qle_bool_iff in Hle. congruence. }
      constructor; [done|].
      apply Forall_forall. intros w Hw. apply elem_of_insert_desc in Hw as [->|Hw].
      * done.
      * by eapply Forall_forall in Hz.
Qed.

Lemma sort_desc_sorted l : StronglySorted score_ge (sort_desc l).
Proof.
  induction l as [|x l IH]; simpl; [constructor|]. by apply insert_desc_sorted.
Qed.

Lemma head_sort_desc x l :
  head (sort_desc l) = Some x → x ∈ l ∧ ∀ y, y ∈ l → (fst y <= fst x)%Q.
Proof.
  intros Hhead. pose proof (sort_desc_sorted l) as Hs.
  destruct (sort_desc l) as [|z l'] eqn:E; [done|]. injection Hhead as ->.
  assert (∀ y, y ∈ l ↔ y ∈ x :: l') as Hmem.
  { intros y. by rewrite <- E, elem_of_sort_desc. }
  split; [apply Hmem; left|].
  intros y Hy. apply Hmem in Hy. apply elem_of_cons in Hy as [->|Hy].
  - apply Qle_refl.
  - apply StronglySorted_inv in Hs as [_ Hall].
    by eapply Forall_forall in Hall.
Qed.

Lemma suitable_agents_spec agents task l :
  suitable_agents agents task = Ok l →
  (∀ score agent, (score, agent) ∈ l →
     (∃ k, (k, agent) ∈ agents) ∧ eligible agent task = Ok true ∧
     calculate_agent_suitability_score agent task = Ok score) ∧
  (∀ k agent, (k, agent) ∈ agents → eligible agent task = Ok true →
     ∃ score, (score, agent) ∈ l ∧
              calculate_agent_suitability_score agent task = Ok score).
Proof.
  revert l. induction agents as [|[k0 a0] agents IH]; intros l Hl.
  - injection Hl as <-. split; [by intros ?? ?%elem_of_nil | by intros ?? ?%elem_of_nil].
  - cbn [suitable_agents] in Hl.
    destruct (eligible a0 task) as [[|]|e] eqn:He; cbn in Hl; [| |done].
    + destruct (calculate_agent_suitability_score a0 task) as [sc|] eqn:Hsc;
        cbn in Hl; [|done].
      destruct (suitable_agents agents task) as [l'|] eqn:Hl'; cbn in Hl; [|done].
      injection Hl as <-. destruct (IH l' eq_refl) as [IH1 IH2]. split.
      * intros score agent [[= -> ->]|Hin]%elem_of_cons.
        -- split; [exists k0; left|done].
        -- destruct (IH1 _ _ Hin) as ([k Hk] & ? & ?).
           split; [exists k; by right|done].
      * intros k agent [[= -> ->]|Hin]%elem_of_cons Hel.
        -- exists sc. split; [left|done].
        -- destruct (IH2 _ _ Hin Hel) as (score & ? & ?).
           exists score. split; [by right|done].
    + destruct (IH l Hl) as [IH1 IH2]. split.
      * intros score agent Hin. destruct (IH1 _ _ Hin) as ([k Hk] & ? & ?).
        split; [exists k; by right|done].
      * intros k agent [[= -> ->]|Hin]%elem_of_cons Hel; [congruence|].
        by apply (IH2 k).
Qed.

(** When [find_suitable_agent] returns an agent, it is an eligible agent of
    the pool whose score is maximal among the eligible ones; when it
    returns [None], no agent of the pool is eligible. *)
Lemma find_suitable_agent_best agents task :
  (∀ best, find_suitable_agent agents task = Ok (Some best) →
     (∃ k, (k, best) ∈ agents) ∧ eligible best task = Ok true ∧
     ∃ score, calculate_agent_suitability_score best task = Ok score ∧
       ∀ k agent score', (k, agent) ∈ agents → eligible agent task = Ok true →
         calculate_agent_suitability_score agent task = Ok score' →
         (score' <= score)%Q) ∧
  (find_suitable_agent agents task = Ok None →
   ∀ k agent, (k, agent) ∈ agents → eligible agent task ≠ Ok true).
Proof.
  unfold find_suitable_agent.
  destruct (suitable_agents agents task) as [l|e] eqn:Hl; cbn.
  2:{ split; [intros ?|]; discriminate. }
  destruct (suitable_agents_spec _ _ _ Hl) as [H1 H2]. split.
  - intros best Hbest. destruct l as [|x l']; [done|]. cbn [truthy] in Hbest.
    injection Hbest as Hbest.
    change (insert_desc x (sort_desc l')) with (sort_desc (x :: l')) in Hbest.
    destruct (head (sort_desc (x :: l'))) as [[score b]|] eqn:Hhead; [|discriminate].
    injection Hbest as ->.
    apply head_sort_desc in Hhead as [Hin Hmax].
    destruct (H1 _ _ Hin) as (Hk & Hel & Hsc).
    split; [done|]. split; [done|]. exists score. split; [done|].
    intros k agent score' Hagent Helig Hscore'.
    destruct (H2 _ _ Hagent Helig) as (sc & Hsc_in & Hsc_eq).
    assert (sc = score') as -> by congruence.
    exact (Hmax _ Hsc_in).
  - intros Hnone k agent Hin Hel. destruct l as [|x l'].
    + destruct (H2 _ _ Hin Hel) as (? & Hin' & _). by apply elem_of_nil in Hin'.
    + cbn [truthy] in Hnone. injection Hnone as Hnone.
      change (insert_desc x (sort_desc l')) with (sort_desc (x :: l')) in Hnone.
      destruct (sort_desc (x :: l')) as [|z l''] eqn:E; [|discriminate].
      assert (x ∈ sort_desc (x :: l')) as Hx by (apply elem_of_sort_desc; left).
      rewrite E in Hx. by apply elem_of_nil in Hx.
Qed.

(** C4, on the code. On a freshly built scheduler the predefined agent
    [file_operations] is Idle, supports the type of [file_task] and has no
    current task, and [find_suitable_agent] raises [TypeError] instead of
    returning it. For [bare_agent], which is eligible and has an empty
    metrics map, the computed score is 0.6 where the specified one is
    0.9. *)
Theorem find_suitable_agent_on_registered_agents :
  (∃ agent, dict_get (agent_pool fresh_scheduler) "file_operations" = Some agent ∧
            agent_status agent = IDLE ∧
            task_type file_task ∈ supported_task_types agent ∧
            current_task agent = None) ∧
  find_suitable_agent (agent_pool fresh_scheduler) file_task
    = Raise (TypeError "object of type 'NoneType' has no len()") ∧
  eligible bare_agent file_task = Ok true ∧
  performance_metrics bare_agent = [] ∧
  (∃ score, calculate_agent_suitability_score bare_agent file_task = Ok score ∧
            (score == 0.6)%Q) ∧
  (specified_score bare_agent 0 == 0.9)%Q.
Proof.
  split.
  { eexists. split; [by vm_compute|]. split; [done|]. split; [|done].
    simpl. set_solver. }
  split; [by vm_compute|]. split; [by vm_compute|]. split; [done|].
  split; [|by vm_compute].
  eexists. split; [by vm_compute|]. by vm_compute.
Qed.

(** ** Scheduling: [schedule_task] *)

Lemma schedule_task_tasks fmt td now s :
  tasks (fst (schedule_task fmt td now s)) =
  <[new_task_id fmt now (size (tasks s)) := length (objs s)]> (tasks s).
Proof.
  unfold schedule_task, mbind, M_bind, gets, modify, queue_put, mret, M_ret. simpl.
  by destruct (queue_insert _ _).
Qed.

Lemma schedule_task_objs fmt td now s :
  ∃ task, objs (fst (schedule_task fmt td now s)) = objs s ++ [task] ∧
          status task = PENDING ∧
          dependencies task = default [] (td_dependencies td).
Proof.
  unfold schedule_task, mbind, M_bind, gets, modify, queue_put, mret, M_ret. simpl.
  eexists. by destruct (queue_insert _ _).
Qed.

(** The id returned depends on the clock, read to the second, and on the
    size of the task table only. *)
Lemma schedule_task_returns fmt td now s q :
  queue_insert (- default 0%Z (td_priority td), length (objs s))%Z (task_queue s) = Ok q →
  snd (schedule_task fmt td now s) = Ok (new_task_id fmt now (size (tasks s))).
Proof.
  intros Hq.
  unfold schedule_task, mbind, M_bind, gets, modify, queue_put, mret, M_ret. simpl.
  by rewrite Hq.
Qed.

Lemma append_suffix_ne (x y : string) : x +:+ "_0" ≠ y +:+ "_1".
Proof.
  revert y. induction x as [|c x IH]; intros y H.
  - destruct y as [|c1 [|c2 [|c3 y]]]; simpl in H; discriminate.
  - destruct y as [|c1 y]; simpl in H.
    + injection H as _ H. destruct x as [|? [|? ?]]; simpl in H; discriminate.
    + injection H as _ H. by apply IH in H.
Qed.

Lemma new_task_id_0_1 fmt a b : new_task_id fmt a 0 ≠ new_task_id fmt b 1.
Proof.
  unfold new_task_id. intros H. apply (inj (String.app "task_")) in H.
  by apply append_suffix_ne in H.
Qed.

Lemma remove_task_task_queue s id : task_queue (remove_task s id) = task_queue s.
Proof. unfold remove_task. by case_bool_decide. Qed.

Lemma cleanup_task_queue now s :
  task_queue (cleanup_completed_tasks now s) = task_queue s.
Proof.
  unfold cleanup_completed_tasks. generalize (tasks_to_remove s now). intros l.
  revert s. induction l as [|id l IH]; intros s; simpl; [done|].
  by rewrite IH, remove_task_task_queue.
Qed.


Lemma schedule_task_task_queue fmt td now s q :
  queue_insert (- default 0%Z (td_priority td), length (objs s))%Z (task_queue s) = Ok q →
  task_queue (fst (schedule_task fmt td now s)) = q.
Proof.
  intros Hq.
  unfold schedule_task, mbind, M_bind, gets, modify, queue_put, mret, M_ret. simpl.
  by rewrite Hq.
Qed.

Lemma expired_status now task :
  expired now task = true → status task = COMPLETED ∨ status task = FAILED.
Proof. intros H. by apply expired_iff in H as (? & _ & _ & ?). Qed.

(** A table of one expired task: the id handed out before the prune step is
    handed out again after it, within the same second. *)
Lemma schedule_after_prune_reuses_id fmt td1 td2 now s old_id old q1 q2 :
  tasks s = {[ old_id := 0%nat ]} →
  objs s = [old] →
  expired now old = true →
  old_id ≠ new_task_id fmt now 1 →
  queue_insert (- default 0%Z (td_priority td1), 1%nat)%Z (task_queue s) = Ok q1 →
  queue_insert (- default 0%Z (td_priority td2), 2%nat)%Z q1 = Ok q2 →
  snd (schedule_task fmt td1 now s) = Ok (new_task_id fmt now 1) ∧
  snd (schedule_task fmt td2 now
         (cleanup_completed_tasks now (fst (schedule_task fmt td1 now s))))
  = Ok (new_task_id fmt now 1).
Proof.
  intros Htasks Hobjs Hexp Hne Hq1 Hq2.
  set (id1 := new_task_id fmt now 1) in *.
  set (first := schedule_task fmt td1 now s).
  assert (tasks (fst first) = <[ id1 := 1%nat ]> {[ old_id := 0%nat ]}) as Hc.
  { unfold first. rewrite schedule_task_tasks, Htasks, Hobjs, map_size_singleton. done. }
  destruct (schedule_task_objs fmt td1 now s) as (new & Hobjs1 & Hpending & _).
  fold first in Hobjs1. rewrite Hobjs in Hobjs1.
  assert (tasks (cleanup_completed_tasks now (fst first)) = {[ id1 := 1%nat ]}) as Hd.
  { apply map_eq. intros k. unfold cleanup_completed_tasks.
    rewrite foldl_remove_task_tasks, Hc.
    destruct (decide (k ∈ tasks_to_remove (fst first) now)) as [Hin|Hn].
    - apply elem_of_tasks_to_remove in Hin as (r & task & Ht & Ho & He).
      rewrite Hc in Ht. rewrite Hobjs1 in Ho.
      destruct (decide (k = id1)) as [->|Hk1]; [|by rewrite lookup_singleton_ne].
      rewrite lookup_insert_eq in Ht. injection Ht as <-.
      injection Ho as <-. apply expired_status in He.
      rewrite Hpending in He. by destruct He.
    - destruct (decide (k = id1)) as [->|Hk1].
      + by rewrite lookup_insert_eq, lookup_singleton_eq.
      + rewrite lookup_insert_ne by done.
        rewrite (lookup_singleton_ne id1 k) by done.
        destruct (decide (k = old_id)) as [->|Hk0]; [|by rewrite lookup_singleton_ne].
        exfalso. apply Hn, elem_of_tasks_to_remove.
        exists 0%nat, old. rewrite Hc, lookup_insert_ne, lookup_singleton_eq by done.
        by rewrite Hobjs1. }
  split.
  - unfold first. rewrite (schedule_task_returns _ _ _ _ q1).
    + by rewrite Htasks, map_size_singleton.
    + by rewrite Hobjs.
  - rewrite (schedule_task_returns _ _ _ _ q2).
    + by rewrite Hd, map_size_singleton.
    + rewrite cleanup_task_queue, cleanup_objs, Hobjs1.
      unfold first. rewrite (schedule_task_task_queue _ _ _ _ q1); [done|].
      by rewrite Hobjs.
Qed.

(** C9, on the code. A scheduler is built, one task is scheduled and run
    at instant 0, where it ends Failed. Twenty-five hours later a task is
    scheduled, the prune step removes the first task, and another task is
    scheduled within the same second: the two calls return the same task
    id, whatever the rendering of the timestamp. *)
Theorem schedule_task_reuses_id (strftime_YmdHMS : Z → string) :
  let s_a := fst (schedule_task strftime_YmdHMS (submission "shell" 0 None) 0
                    fresh_scheduler) in
  let s_b := fst (process_ready_tasks 0 s_a) in
  let first := schedule_task strftime_YmdHMS (submission "shell" 1 None)
                 twenty_five_hours s_b in
  let s_d := cleanup_completed_tasks twenty_five_hours (fst first) in
  let second := schedule_task strftime_YmdHMS (submission "shell" 2 None)
                  twenty_five_hours s_d in
  status <$> objs s_b !! 0%nat = Some FAILED ∧
  snd first = Ok (new_task_id strftime_YmdHMS twenty_five_hours 1) ∧
  snd second = Ok (new_task_id strftime_YmdHMS twenty_five_hours 1).
Proof.
  intros s_a s_b first s_d second.
  assert (tasks s_b = {[ new_task_id strftime_YmdHMS 0 0 := 0%nat ]}) as Htasks.
  { transitivity (tasks s_a); [reflexivity|].
    unfold s_a. rewrite schedule_task_tasks. reflexivity. }
  assert (status <$> objs s_b !! 0%nat = Some FAILED) as Hstatus
    by (vm_compute; reflexivity).
  assert (expired twenty_five_hours <$> objs s_b !! 0%nat = Some true) as Hexp
    by (vm_compute; reflexivity).
  assert (length (objs s_b) = 1%nat) as Hlen by (vm_compute; reflexivity).
  assert (task_queue s_b = []) as Hqueue by (vm_compute; reflexivity).
  clearbody s_b. clear s_a.
  destruct (objs s_b) as [|old [|? ?]] eqn:Hobjs; try discriminate.
  injection Hexp as Hexp.
  split; [exact Hstatus|].
  subst first s_d second.
  apply (schedule_after_prune_reuses_id strftime_YmdHMS _ _ twenty_five_hours s_b
           (new_task_id strftime_YmdHMS 0 0) old [(-1, 1%nat)]%Z
           [(-2, 2%nat); (-1, 1%nat)]%Z Htasks Hobjs Hexp).
  - apply new_task_id_0_1.
  - rewrite Hqueue. reflexivity.
  - reflexivity.
Qed.

(** ** The resource pool within a tick *)

(** The guard of [allocate_resources] keeps the count of free workers
    from going below zero, and a release after a successful allocation
    restores it. *)
Lemma allocate_resources_nonneg (self : ResourcePool) (task : ParallelTask) :
  (0 <= available_workers self)%Z →
  (0 <= available_workers (allocate_resources self task).1.1)%Z.
Proof.
  intros H. unfold allocate_resources.
  destruct (Z.ltb_spec 0 (available_workers self)); simpl; lia.
Qed.

Lemma release_after_allocate (self : ResourcePool) (task : ParallelTask) :
  (allocate_resources self task).2 = true →
  available_workers
    (release_resources (allocate_resources self task).1.1
                       (allocate_resources self task).1.2).1
  = available_workers self.
Proof.
  unfold allocate_resources.
  destruct (Z.ltb_spec 0 (available_workers self)); simpl; [lia|done].
Qed.

(** [release_resources] has no guard: it adds a worker whatever the task. *)
Lemma release_resources_adds (self : ResourcePool) (task : ParallelTask) :
  available_workers (release_resources self task).1 = (available_workers self + 1)%Z.
Proof. reflexivity. Qed.

(** C2, on the code. A scheduler with two workers, all free, holds three
    queued tasks of priorities 3, 2 and 1. One tick admits the three of
    them, allocates a worker to the first two, fails to allocate for the
    third, which stays Pending, and then releases for each of the three:
    the pool ends with three free workers out of two. *)
Theorem tick_releases_unallocated_task (strftime_YmdHMS : Z → string) :
  let s1 := fst (schedule_task strftime_YmdHMS (submission "shell" 3 None) 0
                   fresh_scheduler) in
  let s2 := fst (schedule_task strftime_YmdHMS (submission "shell" 2 None) 0 s1) in
  let s3 := fst (schedule_task strftime_YmdHMS (submission "shell" 1 None) 0 s2) in
  let drained := drain (task_queue s3) [] s3 in
  let dispatched := dispatch [0; 1; 2]%nat 1 (fst drained) in
  let released := release_all [0; 1; 2]%nat 1 (fst dispatched) in
  max_workers (resource_pool s3) = 2%Z ∧
  available_workers (resource_pool s3) = 2%Z ∧
  snd drained = Ok [0; 1; 2]%nat ∧
  snd dispatched = Ok tt ∧
  available_workers (resource_pool (fst dispatched)) = 0%Z ∧
  status <$> objs (fst dispatched) !! 2%nat = Some PENDING ∧
  snd released = Ok tt ∧
  available_workers (resource_pool (fst released)) = 3%Z ∧
  snd (process_ready_tasks 1 s3) = Ok tt ∧
  available_workers (resource_pool (fst (process_ready_tasks 1 s3))) = 3%Z ∧
  max_workers (resource_pool (fst (process_ready_tasks 1 s3))) = 2%Z.
Proof. intros. repeat split; vm_compute; reflexivity. Qed.

(** ** Dependency gating within a tick *)

(** C1, on the code. A task that depends on a task id without a record is
    scheduled on a fresh scheduler. Its dependencies are not met; the
    drain of the next tick admits it and [allocate_resources] sets its
    status to Running, the dependency still being without a record. *)
Theorem tick_runs_task_with_unmet_dependency (strftime_YmdHMS : Z → string) :
  let s1 := fst (schedule_task strftime_YmdHMS
                   (submission "shell" 1 (Some ["no_such_task"])) 0 fresh_scheduler) in
  let drained := drain (task_queue s1) [] s1 in
  let allocated := allocate 0 (fst drained) in
  (∃ task, objs s1 !! 0%nat = Some task ∧
           status task = PENDING ∧
           dependencies task = ["no_such_task"] ∧
           tasks_get s1 "no_such_task" = None ∧
           are_dependencies_met s1 task = Ok false) ∧
  snd drained = Ok [0%nat] ∧
  snd allocated = Ok true ∧
  (∃ task, objs (fst allocated) !! 0%nat = Some task ∧
           status task = RUNNING ∧
           dependencies task = ["no_such_task"] ∧
           tasks_get (fst allocated) "no_such_task" = None ∧
           are_dependencies_met (fst allocated) task = Ok false).
Proof.
  intros s1 drained allocated.
  assert (tasks s1 !! "no_such_task" = None) as Hnone.
  { unfold s1. rewrite schedule_task_tasks.
    rewrite lookup_insert_ne; [reflexivity|]. unfold new_task_id. discriminate. }
  assert (tasks (fst allocated) = tasks s1) as Htasks by reflexivity.
  assert (tasks_get s1 "no_such_task" = None) as Hget1.
  { unfold tasks_get. by rewrite Hnone. }
  assert (tasks_get (fst allocated) "no_such_task" = None) as Hget2.
  { unfold tasks_get. by rewrite Htasks, Hnone. }
  split.
  { eexists. split; [vm_compute; reflexivity|].
    split; [reflexivity|]. split; [reflexivity|]. split; [exact Hget1|].
    by apply (are_dependencies_met_missing_first _ _ "no_such_task" []). }
  split; [vm_compute; reflexivity|]. split; [vm_compute; reflexivity|].
  eexists. split; [vm_compute; reflexivity|].
  split; [reflexivity|]. split; [reflexivity|]. split; [exact Hget2|].
  by apply (are_dependencies_met_missing_first _ _ "no_such_task" []).
Qed.

(** ** Rules for invariants *)

Section preserves.
Context {S : Type}.
Implicit Types (I : S → Prop).

Lemma preserves_ret {A} I (a : A) : preserves I (mret a).
Proof. by apply triple_ret. Qed.

Lemma preserves_bind {A B} I (m : M S A) (f : A → M S B) :
  preserves I m → (∀ a, preserves I (f a)) → preserves I (m ≫= f).
Proof. intros Hm Hf. eapply triple_bind; [exact Hm|]. intros a. apply Hf. Qed.

Lemma preserves_gets {A} I (g : S → A) : preserves I (gets g).
Proof. by intros s H. Qed.

Lemma preserves_modify I (g : S → S) : (∀ s, I s → I (g s)) → preserves I (modify g).
Proof. intros H. by apply triple_modify. Qed.

Lemma preserves_lift_exc {A} I (x : Exc A) : preserves I (lift_exc x).
Proof. intros s H. unfold lift_exc. by destruct x. Qed.

Lemma preserves_raise {A} I e : preserves I (raise e : M S A).
Proof. by apply triple_raise. Qed.

Lemma preserves_if {A} I (b : bool) (m1 m2 : M S A) :
  preserves I m1 → preserves I m2 → preserves I (if b then m1 else m2).
Proof. by destruct b. Qed.

Lemma preserves_try_except {A} I (body : M S A) (handler : exn → M S A) :
  preserves I body → (∀ e, preserves I (handler e)) →
  preserves I (try_except body handler).
Proof.
  intros Hb Hh s Hs. unfold try_except. specialize (Hb s Hs).
  destruct (body s) as [s' [a|e]]; [done|]. by apply Hh.
Qed.

Lemma preserves_fst {A} I (m : M S A) s : preserves I m → I s → I (fst (m s)).
Proof. apply triple_invariant. Qed.

End preserves.

(** ** What the methods leave untouched *)

Lemma frame_get_task I task : preserves I (get_task task).
Proof. intros s H. unfold get_task. by destruct (objs s !! task). Qed.

Lemma frame_put_task I task t : pool_frame I → preserves I (put_task task t).
Proof. intros HI. apply preserves_modify. intros s. apply HI. Qed.

Lemma frame_modify_task I task f : pool_frame I → preserves I (modify_task task f).
Proof.
  intros HI. apply preserves_bind; [apply frame_get_task|]. intros t.
  by apply frame_put_task.
Qed.

Lemma frame_queue_put I e : pool_frame I → preserves I (queue_put e).
Proof.
  intros HI s H. unfold queue_put. destruct (queue_insert e (task_queue s)); [|done].
  by apply HI.
Qed.

Lemma frame_execute_task I task now : pool_frame I → preserves I (execute_task task now).
Proof.
  intros HI. apply preserves_try_except.
  - repeat (apply preserves_bind; [by apply frame_modify_task|]; intros _).
    apply preserves_raise.
  - intros e. repeat (apply preserves_bind; [by apply frame_modify_task|]; intros _).
    apply preserves_raise.
Qed.

Lemma frame_submit {A} I (call : M ParallelTaskScheduler A) :
  preserves I call → preserves I (submit call).
Proof. intros Hc s Hs. unfold submit. simpl. by apply (preserves_fst I call). Qed.

Lemma frame_update_agent_status_after_task I task now :
  pool_frame I → preserves I (update_agent_status_after_task task now).
Proof.
  intros HI. apply preserves_bind; [apply frame_get_task|]. intros t.
  apply preserves_bind; [apply preserves_gets|]. intros p.
  destruct (update_agents_after_task p t now) as [p' r].
  apply preserves_bind; [apply preserves_modify; intros s; apply HI|]. intros _.
  apply preserves_lift_exc.
Qed.

Lemma frame_drain I q ready : pool_frame I → preserves I (drain q ready).
Proof.
  intros HI. revert ready. induction q as [|[priority task] q IH]; intros ready.
  - apply preserves_ret.
  - cbn [drain].
    apply preserves_bind; [apply preserves_modify; intros s; apply HI|]. intros _.
    apply preserves_bind; [apply frame_get_task|]. intros t.
    apply preserves_bind; [apply preserves_gets|]. intros pool.
    apply preserves_bind; [apply preserves_lift_exc|]. intros b.
    apply preserves_if; [apply IH|].
    apply preserves_bind; [by apply frame_queue_put|]. intros _. apply preserves_ret.
Qed.

Lemma frame_wait_for_dependencies_loop I deps task now :
  pool_frame I → preserves I (wait_for_dependencies_loop deps task now).
Proof.
  intros HI. induction deps as [|dep_id rest IH]; [apply preserves_ret|].
  cbn [wait_for_dependencies_loop].
  apply preserves_bind; [apply preserves_gets|]. intros table.
  destruct (table !! dep_id) as [dep|]; [|apply IH].
  apply preserves_bind; [apply frame_get_task|]. intros dep_task.
  destruct (decide (status dep_task = PENDING)); [|apply IH].
  apply preserves_bind; [by apply frame_execute_task|]. intros r.
  apply preserves_if; [apply preserves_ret|].
  apply preserves_bind; [apply frame_get_task|]. intros dep_task'.
  destruct (decide (status dep_task' = FAILED)); [apply preserves_ret|].
  apply preserves_bind; [apply frame_get_task|]. intros t.
  apply preserves_bind; [apply preserves_gets|]. intros s.
  apply preserves_bind; [apply preserves_lift_exc|]. intros met.
  apply preserves_if; [apply preserves_ret|apply IH].
Qed.

Lemma frame_allocate I task : table_frame I → preserves I (allocate task).
Proof.
  intros [HI Hpool]. apply preserves_bind; [apply frame_get_task|]. intros t.
  apply preserves_bind; [apply preserves_gets|]. intros pool.
  destruct (allocate_resources pool t) as [[pool' t'] b].
  apply preserves_bind; [apply preserves_modify; intros s; apply Hpool|]. intros _.
  apply preserves_bind; [by apply frame_put_task|]. intros _.
  apply preserves_ret.
Qed.

Lemma frame_release I task : table_frame I → preserves I (release task).
Proof.
  intros [HI Hpool]. apply preserves_bind; [apply frame_get_task|]. intros t.
  apply preserves_bind; [apply preserves_gets|]. intros pool.
  destruct (release_resources pool t) as [pool' t'].
  apply preserves_bind; [apply preserves_modify; intros s; apply Hpool|]. intros _.
  by apply frame_put_task.
Qed.

Lemma frame_dispatch I ready now : table_frame I → preserves I (dispatch ready now).
Proof.
  intros HI. induction ready as [|task ready IH]; [apply preserves_ret|].
  cbn [dispatch].
  apply preserves_bind; [by apply frame_allocate|]. intros b.
  apply preserves_bind; [|intros _; apply IH].
  apply preserves_if; [|apply preserves_ret].
  apply frame_submit, frame_execute_task, HI.
Qed.

Lemma frame_release_all I ready now : table_frame I → preserves I (release_all ready now).
Proof.
  intros HI. induction ready as [|task ready IH]; [apply preserves_ret|].
  cbn [release_all].
  apply preserves_bind; [by apply frame_release|]. intros _.
  apply preserves_bind; [apply frame_update_agent_status_after_task, HI|]. intros _.
  apply IH.
Qed.

Lemma frame_process_ready_tasks I now :
  table_frame I → preserves I (process_ready_tasks now).
Proof.
  intros HI. apply preserves_bind; [apply preserves_gets|]. intros q.
  apply preserves_bind; [apply frame_drain, HI|]. intros ready.
  apply preserves_if; [|apply preserves_ret].
  apply preserves_bind; [by apply frame_dispatch|]. intros _. by apply frame_release_all.
Qed.

Lemma table_frame_tables T ST SS :
  table_frame (λ s, tasks s = T ∧ task_status_stats s = ST ∧ schedule_stats s = SS).
Proof.
  unfold table_frame, pool_frame.
  split; [split; [|split]|]; intros ? ? (? & ? & ?); by simpl.
Qed.

Lemma pool_frame_resource_pool P : pool_frame (λ s, resource_pool s = P).
Proof. unfold pool_frame. split; [|split]; intros ? ? ?; by simpl. Qed.

(** X1. One tick never edits the task table, the status index or the
    counters of [schedule_stats], whether it returns or raises: the index
    keeps the status each task had when it was scheduled, and no
    completion or failure is counted. *)
Theorem process_ready_tasks_keeps_tables (now : datetime) (s : ParallelTaskScheduler) :
  tasks (fst (process_ready_tasks now s)) = tasks s ∧
  task_status_stats (fst (process_ready_tasks now s)) = task_status_stats s ∧
  schedule_stats (fst (process_ready_tasks now s)) = schedule_stats s.
Proof.
  apply (preserves_fst
           (λ s', tasks s' = tasks s ∧ task_status_stats s' = task_status_stats s
                  ∧ schedule_stats s' = schedule_stats s)
           (process_ready_tasks now)); [|done].
  apply frame_process_ready_tasks, table_frame_tables.
Qed.

(** ** Execution: [execute_task] *)

Lemma get_task_run s task t : objs s !! task = Some t → get_task task s = (s, Ok t).
Proof. intros H. unfold get_task. by rewrite H. Qed.

Lemma modify_task_run s task t f :
  objs s !! task = Some t →
  modify_task task f s = (set_objs (λ l, <[task := f t]> l) s, Ok tt).
Proof.
  intros H. unfold modify_task, mbind, M_bind. by rewrite (get_task_run _ _ _ H).
Qed.

Lemma objs_insert_lookup s task t t' :
  objs s !! task = Some t →
  objs (set_objs (λ l, <[task := t']> l) s) !! task = Some t'.
Proof.
  intros H. simpl. apply list_lookup_insert_eq. by eapply lookup_lt_Some.
Qed.

Lemma set_objs_insert_insert s task t1 t2 :
  set_objs (λ l, <[task := t2]> l) (set_objs (λ l, <[task := t1]> l) s)
  = set_objs (λ l, <[task := t2]> l) s.
Proof. unfold set_objs. simpl. by rewrite list_insert_insert_eq. Qed.

Lemma execute_task_run s task t now :
  objs s !! task = Some t →
  execute_task task now s
  = (set_objs (λ l, <[task := failed_by_execute_task now t]> l) s,
     Raise (NameError "task_id")).
Proof.
  intros H. unfold execute_task, try_except, mbind, M_bind, unbound_name, raise.
  rewrite (modify_task_run _ _ _ _ H).
  pose proof (objs_insert_lookup s task t (set_status RUNNING t) H) as H1.
  rewrite (modify_task_run _ _ _ _ H1), set_objs_insert_insert.
  pose proof (objs_insert_lookup s task t
                (set_started_at now (set_status RUNNING t)) H) as H2.
  rewrite (modify_task_run _ _ _ _ H2), set_objs_insert_insert.
  pose proof (objs_insert_lookup s task t
                (set_status FAILED (set_started_at now (set_status RUNNING t))) H) as H3.
  rewrite (modify_task_run _ _ _ _ H3), set_objs_insert_insert.
  pose proof (objs_insert_lookup s task t
                (set_error (exn_str (NameError "task_id"))
                   (set_status FAILED (set_started_at now (set_status RUNNING t)))) H)
    as H4.
  rewrite (modify_task_run _ _ _ _ H4), set_objs_insert_insert.
  reflexivity.
Qed.

(** X2. [execute_task] never returns: for every task object of the store
    it raises [NameError] on the name [task_id], and leaves the task Failed
    with that error text, [started_at] and [completed_at] set to the time
    of the call, and its result unset as before; no other task object and
    no table, counter, queue, pool or agent is changed. *)
Theorem execute_task_always_fails (s : ParallelTaskScheduler) (task : nat)
    (t : ParallelTask) (now : datetime) :
  objs s !! task = Some t →
  let s' := fst (execute_task task now s) in
  snd (execute_task task now s) = Raise (NameError "task_id") ∧
  (∃ t', objs s' !! task = Some t' ∧
         status t' = FAILED ∧
         error t' = Some "name 'task_id' is not defined" ∧
         started_at t' = Some now ∧
         completed_at t' = Some now ∧
         result t' = result t ∧
         task_id t' = task_id t ∧
         dependencies t' = dependencies t) ∧
  (∀ other, other ≠ task → objs s' !! other = objs s !! other) ∧
  tasks s' = tasks s ∧
  task_status_stats s' = task_status_stats s ∧
  schedule_stats s' = schedule_stats s ∧
  task_queue s' = task_queue s ∧
  resource_pool s' = resource_pool s ∧
  agent_pool s' = agent_pool s.
Proof.
  intros H s'. subst s'. rewrite (execute_task_run _ _ _ _ H).
  split; [done|]. split.
  - eexists. split; [by eapply objs_insert_lookup|]. done.
  - split; [|done]. intros other Hne. simpl. by apply list_lookup_insert_ne.
Qed.

Lemma execute_task_always_fails_witness :
  objs crowded_scheduler !! 1%nat = Some file_task ∧
  snd (execute_task 1 7 crowded_scheduler) = Raise (NameError "task_id").
Proof.
  assert (objs crowded_scheduler !! 1%nat = Some file_task) as H by reflexivity.
  split; [exact H|].
  exact (proj1 (execute_task_always_fails crowded_scheduler 1 file_task 7%Z H)).
Defined.

(** ** The resource pool across a tick *)

Lemma allocate_run s task t :
  objs s !! task = Some t →
  allocate task s
  = (set_objs (λ l, <[task := (allocate_resources (resource_pool s) t).1.2]> l)
       (set_resource_pool (allocate_resources (resource_pool s) t).1.1 s),
     Ok (allocate_resources (resource_pool s) t).2).
Proof.
  intros H. unfold allocate, mbind, M_bind.
  rewrite (get_task_run _ _ _ H). simpl.
  by destruct (allocate_resources (resource_pool s) t) as [[pool' t'] b].
Qed.

Lemma release_run s task t :
  objs s !! task = Some t →
  release task s
  = (set_objs (λ l, <[task := (release_resources (resource_pool s) t).2]> l)
       (set_resource_pool (release_resources (resource_pool s) t).1 s),
     Ok tt).
Proof.
  intros H. unfold release, mbind, M_bind.
  by rewrite (get_task_run _ _ _ H).
Qed.

Lemma drain_resource_pool q ready s :
  resource_pool (fst (drain q ready s)) = resource_pool s.
Proof.
  apply (preserves_fst (λ s', resource_pool s' = resource_pool s) (drain q ready));
    [|done].
  apply frame_drain, pool_frame_resource_pool.
Qed.

Lemma update_agent_status_after_task_resource_pool task now s :
  resource_pool (fst (update_agent_status_after_task task now s)) = resource_pool s.
Proof.
  apply (preserves_fst (λ s', resource_pool s' = resource_pool s)
           (update_agent_status_after_task task now)); [|done].
  apply frame_update_agent_status_after_task, pool_frame_resource_pool.
Qed.

Lemma execute_task_resource_pool task now s :
  resource_pool (fst (execute_task task now s)) = resource_pool s.
Proof.
  apply (preserves_fst (λ s', resource_pool s' = resource_pool s)
           (execute_task task now)); [|done].
  apply frame_execute_task, pool_frame_resource_pool.
Qed.

(** The allocation loop takes a worker for each task while one is free. *)
Lemma dispatch_available_workers ready now s :
  (0 <= available_workers (resource_pool s))%Z →
  snd (dispatch ready now s) = Ok tt →
  available_workers (resource_pool (fst (dispatch ready now s)))
  = (available_workers (resource_pool s)
     - Z.min (available_workers (resource_pool s)) (Z.of_nat (length ready)))%Z.
Proof.
  revert s. induction ready as [|task ready IH]; intros s Hpos Hok.
  - simpl. lia.
  - cbn [dispatch] in *. unfold mbind, M_bind in *.
    destruct (objs s !! task) as [t|] eqn:Ho.
    2:{ unfold allocate, mbind, M_bind, get_task in Hok. rewrite Ho in Hok. done. }
    rewrite (allocate_run _ _ _ Ho) in *.
    unfold allocate_resources in *.
    destruct (Z.ltb_spec 0 (available_workers (resource_pool s))) as [Hfree|Hnone].
    + cbn [fst snd] in *. unfold submit in *. cbn [fst snd] in *.
      match goal with
      | |- context [dispatch ready now ?s2] =>
          specialize (IH s2); rewrite execute_task_resource_pool in IH;
          cbn in IH; rewrite IH; [|lia|]
      end.
      * rewrite length_cons. lia.
      * exact Hok.
    + cbn [fst snd] in *. unfold mret, M_ret in *.
      match goal with
      | |- context [dispatch ready now ?s2] =>
          specialize (IH s2); cbn in IH; rewrite IH; [|lia|]
      end.
      * rewrite length_cons. lia.
      * exact Hok.
Qed.

(** The release loop gives a worker back for each task. *)
Lemma release_all_available_workers ready now s :
  snd (release_all ready now s) = Ok tt →
  available_workers (resource_pool (fst (release_all ready now s)))
  = (available_workers (resource_pool s) + Z.of_nat (length ready))%Z.
Proof.
  revert s. induction ready as [|task ready IH]; intros s Hok.
  - simpl. lia.
  - cbn [release_all] in *. unfold mbind, M_bind in *.
    destruct (objs s !! task) as [t|] eqn:Ho.
    2:{ unfold release, mbind, M_bind, get_task in Hok. rewrite Ho in Hok. done. }
    rewrite (release_run _ _ _ Ho) in *.
    match goal with
    | |- context [update_agent_status_after_task task now ?s1] =>
        pose proof (update_agent_status_after_task_resource_pool task now s1) as Hpool;
        destruct (update_agent_status_after_task task now s1) as [s2 [[]|e]]
    end; [|done].
    cbn [fst snd] in *. rewrite (IH s2 Hok), Hpool. simpl. lia.
Qed.

(** X3. On a queue held in strictly increasing order of priority, a tick
    that admits at least one task and returns leaves
    [available_workers] at the greater of its value before the tick and the
    number of admitted tasks: the count is unchanged when a worker was free
    for every admitted task, and exceeds what it was otherwise, since a
    worker is released for every admitted task, allocated or not. *)
Theorem tick_available_workers (s : ParallelTaskScheduler) (now : datetime)
    (ready : list nat) :
  strictly_sorted (task_queue s) →
  (0 <= available_workers (resource_pool s))%Z →
  snd (drain (task_queue s) [] s) = Ok ready →
  ready ≠ [] →
  snd (process_ready_tasks now s) = Ok tt →
  available_workers (resource_pool (fst (process_ready_tasks now s)))
  = Z.max (available_workers (resource_pool s)) (Z.of_nat (length ready)).
Proof.
  intros _ Hpos Hdrain Hne Hok.
  pose proof (drain_resource_pool (task_queue s) [] s) as Hpool.
  unfold process_ready_tasks, mbind, M_bind, gets in *.
  destruct (drain (task_queue s) [] s) as [s1 [ready'|e]]; [|done].
  cbn [fst snd] in *. injection Hdrain as ->.
  destruct ready as [|task ready]; [done|]. cbn [truthy] in *.
  pose proof (dispatch_available_workers (task :: ready) now s1) as Hd.
  destruct (dispatch (task :: ready) now s1) as [s2 [[]|e]]; [|done].
  cbn [fst snd] in *. rewrite Hpool in Hd.
  rewrite (release_all_available_workers _ _ _ Hok), Hd by done. lia.
Qed.

Lemma tick_available_workers_witness :
  available_workers (resource_pool crowded_scheduler) = 2%Z ∧
  available_workers (resource_pool (fst (process_ready_tasks 1 crowded_scheduler)))
  = Z.max (available_workers (resource_pool crowded_scheduler)) 3.
Proof.
  split; [by vm_compute|].
  apply (tick_available_workers crowded_scheduler 1%Z [0; 1; 2]%nat).
  - unfold strictly_sorted. vm_compute. repeat constructor.
  - by vm_compute.
  - by vm_compute.
  - done.
  - by vm_compute.
Defined.

(** ** A tick on one queued task *)

Lemma can_allocate_task_true_worker pool r :
  can_allocate_task pool r = Ok true → (0 < available_workers pool)%Z.
Proof.
  unfold can_allocate_task.
  destruct (Z.leb_spec (available_workers pool) 0); [done|lia].
Qed.

Lemma update_agents_after_task_unheld agents task now :
  unheld (task_id task) agents →
  update_agents_after_task agents task now = (agents, Ok tt).
Proof.
  induction 1 as [|[k agent] agents Hne _ IH]; [done|].
  cbn [update_agents_after_task]. simpl in Hne.
  destruct (decide (current_task agent = Some (task_id task))); [done|].
  by rewrite IH.
Qed.

(** X4. A tick that finds one task in the queue, with a worker free,
    memory below the ceiling and no agent holding the task, returns and
    leaves the task Failed with the text of the [NameError] raised by
    [execute_task], whatever the status of the task before the tick
    (Pending, but also Completed, Failed or Cancelled); the queue is empty
    afterwards, and the worker count and the agents are as before. *)
Theorem tick_fails_queued_task (s : ParallelTaskScheduler) (now : datetime)
    (priority : Z) (task : nat) (t : ParallelTask) :
  task_queue s = [(priority, task)] →
  objs s !! task = Some t →
  can_allocate_task (resource_pool s) (resource_requirements t) = Ok true →
  unheld (task_id t) (agent_pool s) →
  let s' := fst (process_ready_tasks now s) in
  snd (process_ready_tasks now s) = Ok tt ∧
  (∃ t', objs s' !! task = Some t' ∧
         status t' = FAILED ∧
         error t' = Some "name 'task_id' is not defined" ∧
         started_at t' = Some now ∧
         completed_at t' = Some now) ∧
  task_queue s' = [] ∧
  available_workers (resource_pool s') = available_workers (resource_pool s) ∧
  agent_pool s' = agent_pool s.
Proof.
  intros Hq Ho Hcan Hunheld s'. subst s'.
  pose proof (can_allocate_task_true_worker _ _ Hcan) as Hfree.
  assert (process_ready_tasks now s
          = (set_resource_pool
               (with_available_workers
                  (available_workers (resource_pool s) - 1 + 1) (resource_pool s))
               (set_task_queue []
                  (set_objs
                     (λ l, <[task := failed_by_execute_task now (set_status RUNNING t)]> l)
                     s)),
             Ok tt)) as ->.
  { unfold process_ready_tasks, mbind, M_bind, gets. rewrite Hq.
    cbn [drain]. unfold mbind, M_bind, modify, gets, lift_exc, mret, M_ret.
    rewrite (get_task_run (set_task_queue [] s) task t Ho).
    cbn [resource_pool set_task_queue]. rewrite Hcan. cbn [drain app truthy].
    cbn [dispatch]. unfold mbind, M_bind.
    rewrite (allocate_run (set_task_queue [] s) task t Ho).
    unfold allocate_resources. cbn [resource_pool set_task_queue].
    destruct (Z.ltb_spec 0 (available_workers (resource_pool s))); [|lia].
    cbn [fst snd]. unfold submit.
    match goal with
    | |- context [execute_task task now ?s1] =>
        rewrite (execute_task_run s1 task (set_status RUNNING t) now)
    end.
    2:{ simpl. apply list_lookup_insert_eq. by eapply lookup_lt_Some. }
    cbn [fst]. unfold mret, M_ret. cbn [release_all]. unfold mbind, M_bind.
    match goal with
    | |- context [release task ?s1] =>
        rewrite (release_run s1 task (failed_by_execute_task now (set_status RUNNING t)))
    end.
    2:{ simpl. apply list_lookup_insert_eq. rewrite length_insert.
        by eapply lookup_lt_Some. }
    unfold release_resources. cbn [fst snd].
    destruct (decide (status (failed_by_execute_task now (set_status RUNNING t))
                      = RUNNING)) as [Hbad|_]; [done|].
    unfold update_agent_status_after_task, mbind, M_bind, gets, modify, lift_exc.
    match goal with
    | |- context [get_task task ?s1] =>
        rewrite (get_task_run s1 task (failed_by_execute_task now (set_status RUNNING t)))
    end.
    2:{ simpl. apply list_lookup_insert_eq. rewrite !length_insert.
        by eapply lookup_lt_Some. }
    cbn [agent_pool set_objs set_resource_pool set_task_queue].
    rewrite (update_agents_after_task_unheld (agent_pool s)
               (failed_by_execute_task now (set_status RUNNING t)) now Hunheld).
    unfold set_agent_pool, set_objs, set_resource_pool, set_task_queue. simpl.
    rewrite !list_insert_insert_eq. reflexivity. }
  split; [done|]. split.
  - eexists. split.
    + simpl. apply list_lookup_insert_eq. by eapply lookup_lt_Some.
    + done.
  - split; [done|]. split; [simpl; lia|done].
Qed.

Lemma tick_fails_queued_task_witness :
  status <$> objs cancelled_in_queue !! 0%nat = Some CANCELLED ∧
  snd (process_ready_tasks 1 cancelled_in_queue) = Ok tt.
Proof.
  split; [reflexivity|].
  refine (proj1 (tick_fails_queued_task cancelled_in_queue 1%Z 0%Z 0%nat
                   (set_status CANCELLED file_task) _ _ _ _)).
  - reflexivity.
  - reflexivity.
  - by vm_compute.
  - unfold unheld. vm_compute. repeat constructor; discriminate.
Defined.

(** ** Metric updates: outcomes of [update_agent_metrics] *)

Lemma Qlt_bool_true x y : (x < y)%Q → Qlt_bool x y = true.
Proof. apply Qlt_bool_iff. Qed.

Lemma Qlt_bool_false x y : ¬ (x < y)%Q → Qlt_bool x y = false.
Proof. intros H. apply not_true_is_false. by rewrite Qlt_bool_iff. Qed.

(** The call on an agent without metrics is the call on the agent with the
    default metrics. *)
Lemma update_agent_metrics_empty execution_time success now agent :
  performance_metrics agent = [] →
  update_agent_metrics execution_time success now agent
  = update_agent_metrics execution_time success now
      (set_performance_metrics default_metrics agent).
Proof.
  intros H. unfold update_agent_metrics, mbind, M_bind, gets, modify.
  rewrite H. reflexivity.
Qed.

(** The raising path of [update_agent_metrics]. *)
Lemma update_agent_metrics_positive (agent : ParallelAgent) (execution_time : Q)
    (success : bool) (now : datetime) (rt sr : Q) :
  dict_get (performance_metrics agent) "response_time" = Some rt →
  (0 < rt)%Q →
  dict_get (performance_metrics agent) "success_rate" = Some sr →
  let agent' := fst (update_agent_metrics execution_time success now agent) in
  snd (update_agent_metrics execution_time success now agent)
    = Raise (NameError "response_time") ∧
  dict_get (performance_metrics agent') "response_time"
    = Some (rt * 0.8 + execution_time * 0.2)%Q ∧
  dict_get (performance_metrics agent') "success_rate"
    = Some (if Qlt_bool 0 sr
            then (sr * 0.9 + (if success then 1.0 else 0.0) * 0.1)%Q else sr) ∧
  (∀ k, k ≠ "response_time" → k ≠ "success_rate" →
     dict_get (performance_metrics agent') k = dict_get (performance_metrics agent) k) ∧
  task_history agent' = task_history agent ∧
  current_task agent' = current_task agent ∧
  agent_status agent' = agent_status agent.
Proof.
  intros Hrt Hpos Hsr agent'. subst agent'.
  unfold update_agent_metrics, mbind, M_bind, gets, modify, metric, set_metric,
    dict_item, mret, M_ret, unbound_name, raise.
  rewrite (dict_get_truthy _ _ _ Hrt), Hrt, (Qlt_bool_true _ _ Hpos).
  unfold modify. cbn [performance_metrics set_performance_metrics].
  rewrite dict_get_set_ne by done. rewrite Hsr.
  destruct (Qlt_bool 0 sr); cbn [fst snd performance_metrics set_performance_metrics].
  - split; [done|]. split; [by rewrite dict_get_set_ne, dict_get_set_eq|].
    split; [by rewrite dict_get_set_eq|]. split; [|done].
    intros k Hk1 Hk2. by rewrite !dict_get_set_ne.
  - split; [done|]. split; [by rewrite dict_get_set_eq|].
    split; [by rewrite dict_get_set_ne|]. split; [|done].
    intros k Hk1 Hk2. by rewrite !dict_get_set_ne.
Qed.

(** X5. When the stored response time is positive and a success rate is
    stored, [update_agent_metrics] raises [NameError] on the name
    [response_time]: it has by then smoothed the response time and, if
    positive, the success rate, and it leaves the efficiency, every other
    metric and the task history as they were. *)
Theorem update_agent_metrics_raises (agent : ParallelAgent) (execution_time : Q)
    (success : bool) (now : datetime) (rt sr : Q) :
  dict_get (performance_metrics agent) "response_time" = Some rt →
  (0 < rt)%Q →
  dict_get (performance_metrics agent) "success_rate" = Some sr →
  let agent' := fst (update_agent_metrics execution_time success now agent) in
  snd (update_agent_metrics execution_time success now agent)
    = Raise (NameError "response_time") ∧
  dict_get (performance_metrics agent') "response_time"
    = Some (rt * 0.8 + execution_time * 0.2)%Q ∧
  dict_get (performance_metrics agent') "success_rate"
    = Some (if Qlt_bool 0 sr
            then (sr * 0.9 + (if success then 1.0 else 0.0) * 0.1)%Q else sr) ∧
  (∀ k, k ≠ "response_time" → k ≠ "success_rate" →
     dict_get (performance_metrics agent') k = dict_get (performance_metrics agent) k) ∧
  task_history agent' = task_history agent ∧
  current_task agent' = current_task agent ∧
  agent_status agent' = agent_status agent.
Proof. apply update_agent_metrics_positive. Qed.

Lemma update_agent_metrics_raises_witness :
  snd (update_agent_metrics 2 true 0%Z plain_agent) = Raise (NameError "response_time").
Proof.
  refine (proj1 (update_agent_metrics_raises plain_agent 2 true 0%Z 1 1 _ _ _)).
  - reflexivity.
  - reflexivity.
  - reflexivity.
Defined.

(** X6. On an agent whose metrics map is not empty and lacks
    [response_time], [update_agent_metrics] raises [KeyError] and leaves
    the agent as it was; when [response_time] is stored and [success_rate]
    is not, it raises [KeyError] on [success_rate]. *)
Theorem update_agent_metrics_missing_key (agent : ParallelAgent) (execution_time : Q)
    (success : bool) (now : datetime) :
  performance_metrics agent ≠ [] →
  (dict_get (performance_metrics agent) "response_time" = None →
   update_agent_metrics execution_time success now agent
   = (agent, Raise (KeyError "response_time"))) ∧
  (is_Some (dict_get (performance_metrics agent) "response_time") →
   dict_get (performance_metrics agent) "success_rate" = None →
   snd (update_agent_metrics execution_time success now agent)
   = Raise (KeyError "success_rate")).
Proof.
  intros Hne.
  assert (truthy (performance_metrics agent) = true) as Htruthy.
  { by destruct (performance_metrics agent). }
  unfold update_agent_metrics, mbind, M_bind, gets, modify, metric, set_metric,
    dict_item, mret, M_ret.
  rewrite Htruthy. split.
  - intros Hnone. by rewrite Hnone.
  - intros [rt Hrt] Hnone. rewrite Hrt. unfold modify.
    destruct (Qlt_bool 0 rt); cbn [performance_metrics set_performance_metrics].
    + rewrite dict_get_set_ne by done. by rewrite Hnone.
    + by rewrite Hnone.
Qed.

Lemma update_agent_metrics_missing_key_witness :
  performance_metrics partial_agent ≠ [] ∧
  update_agent_metrics 2 true 0%Z partial_agent
  = (partial_agent, Raise (KeyError "response_time")).
Proof.
  assert (performance_metrics partial_agent ≠ []) as H by discriminate.
  split; [exact H|].
  apply (proj1 (update_agent_metrics_missing_key partial_agent 2 true 0%Z H)).
  reflexivity.
Defined.

Lemma length_last50 {A} (l : list A) : length (last50 l) = Nat.min (length l) 50.
Proof. unfold last50. rewrite length_drop. lia. Qed.

Lemma last50_short {A} (l : list A) : length l ≤ 50 → last50 l = l.
Proof.
  intros H. unfold last50. replace (length l - 50) with 0 by lia. done.
Qed.

Lemma last_last50 {A} (l : list A) (x : A) : last (last50 (l ++ [x])) = Some x.
Proof.
  unfold last50. rewrite drop_app_le.
  - apply last_snoc.
  - rewrite length_app. simpl. lia.
Qed.

Lemma first_of_current_task_set_performance_metrics m a :
  first_of_current_task (set_performance_metrics m a) = first_of_current_task a.
Proof. reflexivity. Qed.

(** X7. When the stored response time is not positive and the three
    metrics are stored, [update_agent_metrics] returns: the response time
    is unchanged, the efficiency is smoothed towards 1.0, and the entry of
    the call is appended to the task history, which is cut to its last 50
    entries. *)
Theorem update_agent_metrics_returns (agent : ParallelAgent) (execution_time : Q)
    (success : bool) (now : datetime) (rt sr eff : Q) :
  dict_get (performance_metrics agent) "response_time" = Some rt →
  ¬ (0 < rt)%Q →
  dict_get (performance_metrics agent) "success_rate" = Some sr →
  dict_get (performance_metrics agent) "efficiency" = Some eff →
  let agent' := fst (update_agent_metrics execution_time success now agent) in
  let entry := mkEntry now execution_time (Some success) (first_of_current_task agent) in
  snd (update_agent_metrics execution_time success now agent) = Ok tt ∧
  dict_get (performance_metrics agent') "response_time" = Some rt ∧
  dict_get (performance_metrics agent') "efficiency" = Some (eff * 0.8 + 1.0 * 0.2)%Q ∧
  task_history agent' = last50 (task_history agent ++ [entry]) ∧
  last (task_history agent') = Some entry ∧
  length (task_history agent') = Nat.min (length (task_history agent) + 1) 50.
Proof.
  intros Hrt Hpos Hsr Heff agent' entry. subst agent' entry.
  unfold update_agent_metrics, mbind, M_bind, gets, modify, metric, set_metric,
    dict_item, mret, M_ret.
  rewrite (dict_get_truthy _ _ _ Hrt), Hrt, (Qlt_bool_false _ _ Hpos), Hsr.
  unfold modify.
  destruct (Qlt_bool 0 sr);
    cbn [performance_metrics set_performance_metrics];
    rewrite ?dict_get_set_ne by done; rewrite Heff; unfold id;
    cbn [task_history set_task_history set_performance_metrics performance_metrics];
    rewrite !first_of_current_task_set_performance_metrics;
    set (entry := mkEntry now execution_time (Some success)
                    (first_of_current_task agent));
    (destruct (Z.ltb_spec 50 (Z.of_nat (length (task_history agent ++ [entry]))))
       as [Hlong|Hshort];
     cbn [fst snd task_history set_task_history
          performance_metrics set_performance_metrics];
     (split; [done|]);
     (split; [by rewrite ?dict_get_set_ne by done|]);
     (split; [by rewrite dict_get_set_eq|])).
  - split; [done|]. split; [apply last_last50|].
    rewrite length_last50, length_app. simpl. lia.
  - rewrite last50_short by lia. split; [done|]. split; [apply last_snoc|].
    rewrite length_app in *. simpl in *. lia.
  - split; [done|]. split; [apply last_last50|].
    rewrite length_last50, length_app. simpl. lia.
  - rewrite last50_short by lia. split; [done|]. split; [apply last_snoc|].
    rewrite length_app in *. simpl in *. lia.
Qed.

Lemma update_agent_metrics_returns_witness :
  snd (update_agent_metrics 2 true 0%Z stalled_agent) = Ok tt.
Proof.
  refine (proj1 (update_agent_metrics_returns stalled_agent 2 true 0%Z 0 0.5 1 _ _ _ _)).
  - reflexivity.
  - intros H. by apply Qlt_irrefl in H.
  - reflexivity.
  - reflexivity.
Defined.

(** X8. Once the stored response time is positive and a success rate is
    stored, the history of an agent is never written: after any sequence
    of [update_agent_metrics] calls with non-negative execution times the
    response time is still positive, and the task history and the
    efficiency are what they were before the first call. *)
Theorem task_history_never_recorded (agent : ParallelAgent)
    (calls : list (Q * bool * datetime)) (rt sr : Q) :
  dict_get (performance_metrics agent) "response_time" = Some rt →
  (0 < rt)%Q →
  dict_get (performance_metrics agent) "success_rate" = Some sr →
  Forall (λ c : Q * bool * datetime, (0 <= c.1.1)%Q) calls →
  task_history (update_all calls agent) = task_history agent ∧
  dict_get (performance_metrics (update_all calls agent)) "efficiency"
    = dict_get (performance_metrics agent) "efficiency" ∧
  (∃ rt', dict_get (performance_metrics (update_all calls agent)) "response_time"
          = Some rt' ∧ (0 < rt')%Q).
Proof.
  intros Hrt Hpos Hsr Hcalls. revert agent rt sr Hrt Hpos Hsr.
  induction Hcalls as [|[[et success] now] calls Het _ IH]; intros agent rt sr Hrt Hpos Hsr.
  - split; [done|]. split; [done|]. by exists rt.
  - simpl in Het.
    destruct (update_agent_metrics_positive agent et success now rt sr Hrt Hpos Hsr)
      as (Hraise & Hrt' & Hsr' & Hother & Hhist & _).
    change (update_all ((et, success, now) :: calls) agent)
      with (update_all calls (fst (update_agent_metrics et success now agent))).
    assert (0 < rt * 0.8 + et * 0.2)%Q as Hpos' by lra.
    destruct (IH _ _ _ Hrt' Hpos' Hsr') as (IHh & IHe & IHrt).
    split; [by rewrite IHh|].
    split; [rewrite IHe; by apply Hother|]. done.
Qed.

Lemma task_history_never_recorded_witness :
  task_history (update_all [(2, false, 0%Z); (0.5, true, 1%Z)]%Q plain_agent)
  = task_history plain_agent.
Proof.
  refine (proj1 (task_history_never_recorded plain_agent
                   [(2, false, 0%Z); (0.5, true, 1%Z)]%Q 1 1 _ _ _ _)).
  - reflexivity.
  - reflexivity.
  - reflexivity.
  - repeat constructor; discriminate.
Defined.





(** ** Agent selection on a registry *)

Lemma eligible_unassigned agent task :
  current_task agent = None →
  eligible agent task
  = if bool_decide (agent_status agent = IDLE ∧
                    task_type task ∈ supported_task_types agent)
    then Raise (TypeError "object of type 'NoneType' has no len()")
    else Ok false.
Proof.
  intros Hcur. unfold eligible, len_current_task. rewrite Hcur.
  destruct (decide (agent_status agent = IDLE)) as [Hs|Hs];
    [|by rewrite bool_decide_false by naive_solver].
  case_bool_decide as Hsup.
  - by rewrite bool_decide_true.
  - by rewrite bool_decide_false by naive_solver.
Qed.

(** X10. In a scheduler whose agents all have [current_task] unset, as
    every agent has after [register_agent], [find_suitable_agent] and
    [has_available_agent_for_task] raise [TypeError] as soon as one agent
    is Idle and supports the task's type, and answer [None] and [False]
    otherwise: no agent is ever selected. *)
Theorem find_suitable_agent_unassigned (s : ParallelTaskScheduler) (task : ParallelTask) :
  Forall (λ kv : string * ParallelAgent, current_task kv.2 = None) (agent_pool s) →
  let candidate (kv : string * ParallelAgent) :=
    agent_status kv.2 = IDLE ∧ task_type task ∈ supported_task_types kv.2 in
  (Exists candidate (agent_pool s) →
   find_suitable_agent (agent_pool s) task
     = Raise (TypeError "object of type 'NoneType' has no len()") ∧
   has_available_agent_for_task s task
     = Raise (TypeError "object of type 'NoneType' has no len()")) ∧
  (¬ Exists candidate (agent_pool s) →
   find_suitable_agent (agent_pool s) task = Ok None ∧
   has_available_agent_for_task s task = Ok false).
Proof.
  intros Hall candidate. unfold find_suitable_agent, has_available_agent_for_task.
  induction Hall as [|[k agent] agents Hcur _ IH]; simpl in *.
  - split; [by intros ?%Exists_nil|done].
  - rewrite (eligible_unassigned _ _ Hcur).
    case_bool_decide as Hc.
    + split; [done|]. intros Hn. exfalso. apply Hn. by left.
    + cbn. destruct IH as [IH1 IH2]. split.
      * intros [?|Hex]%Exists_cons; [done|]. by apply IH1.
      * intros Hn. apply IH2. intros Hex. apply Hn. by right.
Qed.

Lemma find_suitable_agent_unassigned_witness :
  find_suitable_agent (agent_pool fresh_scheduler) file_task
  = Raise (TypeError "object of type 'NoneType' has no len()").
Proof.
  refine (proj1 (proj1 (find_suitable_agent_unassigned fresh_scheduler file_task _) _)).
  - vm_compute. repeat constructor.
  - apply Exists_cons_hd. split; [reflexivity|]. vm_compute. left.
Defined.

Lemma Qdiv_unit (a b : Q) : (0 <= a)%Q → (a <= b)%Q → (0 < b)%Q → (0 <= a / b <= 1)%Q.
Proof.
  intros Ha Hab Hb. split.
  - apply Qle_shift_div_l; [done|]. lra.
  - apply Qle_shift_div_r; [done|]. lra.
Qed.

Lemma count_success_le l : count_success l ≤ length l.
Proof. unfold count_success. apply List.filter_length_le. Qed.

(** X11. For every eligible agent whose first-listed metric lies in
    [0, 1] (or whose metrics map is empty), the suitability score is
    computed without error and lies above 0.4 and at most at 1.0. *)
Theorem suitability_score_bounds (agent : ParallelAgent) (task : ParallelTask) :
  eligible agent task = Ok true →
  (∀ v, head (dict_values (performance_metrics agent)) = Some v → (0 <= v <= 1)%Q) →
  ∃ score, calculate_agent_suitability_score agent task = Ok score ∧
           (0.4 < score <= 1.0)%Q.
Proof.
  intros Hel Hmetric.
  apply eligible_true in Hel as (_ & Hsup & id & Hcur & Hlt).
  unfold calculate_agent_suitability_score, len_current_task.
  rewrite Hcur, bool_decide_true by done. cbn [mbind Exc_bind].
  set (n := Z.of_nat (String.length id)) in *.
  set (base := if truthy (performance_metrics agent) then _ else _).
  assert (0.4 <= base <= 0.7)%Q as Hbase.
  { subst base. destruct (performance_metrics agent) as [|[k v] pm]; simpl.
    - lra.
    - specialize (Hmetric v eq_refl). lra. }
  clearbody base.
  assert (1 <= inject_Z (max_concurrent_tasks agent))%Q as Hmax.
  { change 1%Q with (inject_Z 1). rewrite <- Zle_Qle. lia. }
  assert (Qmax (inject_Z (max_concurrent_tasks agent)) 1.0
          == inject_Z (max_concurrent_tasks agent))%Q as Hqmax.
  { apply Q.max_l. lra. }
  assert (0 <= inject_Z n / Qmax (inject_Z (max_concurrent_tasks agent)) 1.0 < 1)%Q
    as Hload.
  { rewrite Hqmax. split.
    - apply Qle_shift_div_l; [lra|]. rewrite Qmult_0_l.
      change 0%Q with (inject_Z 0). rewrite <- Zle_Qle. lia.
    - apply Qlt_shift_div_r; [lra|]. rewrite Qmult_1_l. rewrite <- Zlt_Qlt. lia. }
  rewrite (py_div_nonzero _ (Qmax (inject_Z (max_concurrent_tasks agent)) 1.0)).
  2:{ rewrite Hqmax. lra. }
  cbn [mbind Exc_bind].
  set (load := (inject_Z n / Qmax (inject_Z (max_concurrent_tasks agent)) 1.0)%Q) in *.
  clearbody load.
  destruct (task_history agent) as [|h hs] eqn:Hh; cbn [truthy].
  - eexists. split; [reflexivity|]. lra.
  - rewrite <- Hh.
    assert (0 < inject_Z (Z.of_nat (length (last5 (task_history agent)))))%Q as Hlen.
    { change 0%Q with (inject_Z 0). rewrite <- Zlt_Qlt.
      pose proof (last5_nonempty (task_history agent)). rewrite Hh in *.
      specialize (H ltac:(done)). lia. }
    rewrite py_div_nonzero by lra. cbn [mbind Exc_bind].
    eexists. split; [reflexivity|].
    pose proof (Qdiv_unit
                  (inject_Z (Z.of_nat (count_success (last5 (task_history agent)))))
                  (inject_Z (Z.of_nat (length (last5 (task_history agent)))))) as Hrate.
    destruct Hrate as [Hr0 Hr1]; [| |done|].
    + change 0%Q with (inject_Z 0). rewrite <- Zle_Qle. lia.
    + rewrite <- Zle_Qle. pose proof (count_success_le (last5 (task_history agent))). lia.
    + set (rate := (inject_Z _ / inject_Z _)%Q) in *. lra.
Qed.

Lemma suitability_score_bounds_witness :
  ∃ score, calculate_agent_suitability_score bare_agent file_task = Ok score ∧
           (0.4 < score <= 1.0)%Q.
Proof.
  apply suitability_score_bounds.
  - reflexivity.
  - intros v H. discriminate H.
Defined.

Lemma head_sort_desc_first l1 x l2 :
  (∀ y, y ∈ l1 → (fst y < fst x)%Q) →
  (∀ y, y ∈ l2 → (fst y <= fst x)%Q) →
  head (sort_desc (l1 ++ x :: l2)) = Some x.
Proof.
  intros H1 H2. induction l1 as [|z l1 IH].
  - simpl. destruct (sort_desc l2) as [|y l] eqn:E; [done|]. simpl.
    assert (y ∈ l2) as Hy by (apply elem_of_sort_desc; rewrite E; left).
    apply H2, Qle_bool_iff in Hy. by rewrite Hy.
  - simpl. specialize (IH ltac:(intros y Hy; apply H1; by right)).
    destruct (sort_desc (l1 ++ x :: l2)) as [|y l] eqn:E; [done|].
    injection IH as ->. simpl.
    assert (Qle_bool (fst x) (fst z) = false) as ->; [|done].
    apply not_true_is_false. rewrite Qle_bool_iff. apply Qlt_not_le, H1. left.
Qed.

(** X12. Ties are broken by the order of registration: when the scored
    candidates, listed in pool order, have an entry that is strictly
    better than every earlier one and at least as good as every later
    one, [find_suitable_agent] returns the agent of that entry. *)
Theorem find_suitable_agent_first_best (agents : dict ParallelAgent) (task : ParallelTask)
    (earlier later : list (Q * ParallelAgent)) (score : Q) (best : ParallelAgent) :
  suitable_agents agents task = Ok (earlier ++ (score, best) :: later) →
  (∀ y, y ∈ earlier → (fst y < score)%Q) →
  (∀ y, y ∈ later → (fst y <= score)%Q) →
  find_suitable_agent agents task = Ok (Some best).
Proof.
  intros Hl H1 H2. unfold find_suitable_agent. rewrite Hl. cbn [mbind Exc_bind].
  rewrite (head_sort_desc_first earlier (score, best) later H1 H2).
  by destruct earlier.
Qed.

Lemma find_suitable_agent_first_best_witness :
  find_suitable_agent two_helpers file_task = Ok (Some bare_agent).
Proof.
  eapply (find_suitable_agent_first_best two_helpers file_task [] [_]).
  - reflexivity.
  - intros y Hy. by apply elem_of_nil in Hy.
  - intros y ->%list_elem_of_singleton. discriminate.
Defined.

(** ** Pruning: idempotence and order in time *)

Lemma tasks_to_remove_cleanup now s :
  tasks_to_remove (cleanup_completed_tasks now s) now = [].
Proof.
  destruct (tasks_to_remove (cleanup_completed_tasks now s) now) as [|k l] eqn:E; [done|].
  assert (k ∈ tasks_to_remove (cleanup_completed_tasks now s) now) as Hin
    by (rewrite E; left).
  apply elem_of_tasks_to_remove in Hin as (r & task & Ht & Ho & He).
  rewrite cleanup_objs in Ho. unfold cleanup_completed_tasks in Ht.
  rewrite foldl_remove_task_tasks in Ht.
  destruct (decide (k ∈ tasks_to_remove s now)) as [|Hn]; [done|].
  exfalso. apply Hn, elem_of_tasks_to_remove. eauto.
Qed.

(** X13. After a run of [cleanup_completed_tasks] no task of the table
    meets the removal test at that instant, and a second run at the same
    instant leaves the scheduler as the first one left it. *)
Theorem cleanup_completed_tasks_idempotent (now : datetime) (s : ParallelTaskScheduler) :
  let s' := cleanup_completed_tasks now s in
  (∀ id task, tasks_get s' id = Some task → expired now task = false) ∧
  cleanup_completed_tasks now s' = s'.
Proof.
  intros s'. split.
  - intros id task Hget. unfold tasks_get in Hget.
    destruct (tasks s' !! id) as [r|] eqn:Ht; [|done]. simpl in Hget.
    destruct (expired now task) eqn:He; [|done].
    assert (id ∈ tasks_to_remove s' now) as Hin
      by (apply elem_of_tasks_to_remove; eauto).
    subst s'. rewrite tasks_to_remove_cleanup in Hin. by apply elem_of_nil in Hin.
  - subst s'. unfold cleanup_completed_tasks at 1.
    by rewrite tasks_to_remove_cleanup.
Qed.

Lemma expired_later now1 now2 task :
  (now1 <= now2)%Z → expired now1 task = true → expired now2 task = true.
Proof.
  intros Hle (c & Hc & Hold & Hst)%expired_iff. apply expired_iff.
  exists c. repeat split; [done|lia|done].
Qed.

(** X14. Pruning only removes, and a later prune keeps no more than an
    earlier one: an entry of the task table or of the status index that is
    left by a run at some instant is left, unchanged, by a run on the same
    scheduler at any earlier instant, and was in the scheduler before. *)
Theorem cleanup_completed_tasks_antitone (s : ParallelTaskScheduler)
    (now1 now2 : datetime) (id : string) :
  (now1 <= now2)%Z →
  let s1 := cleanup_completed_tasks now1 s in
  let s2 := cleanup_completed_tasks now2 s in
  (∀ r, tasks s2 !! id = Some r → tasks s1 !! id = Some r ∧ tasks s !! id = Some r) ∧
  (∀ st, task_status_stats s2 !! id = Some st →
         task_status_stats s1 !! id = Some st ∧ task_status_stats s !! id = Some st).
Proof.
  intros Hle s1 s2. subst s1 s2. unfold cleanup_completed_tasks.
  rewrite !foldl_remove_task_tasks, !foldl_remove_task_stats.
  assert (id ∈ tasks_to_remove s now1 → id ∈ tasks_to_remove s now2) as Hmono.
  { rewrite !elem_of_tasks_to_remove. intros (r & task & ? & ? & He).
    exists r, task. eauto using expired_later. }
  destruct (decide (id ∈ tasks_to_remove s now2)) as [|Hn2]; [done|].
  destruct (decide (id ∈ tasks_to_remove s now1)) as [H1|Hn1]; [by apply Hmono in H1|].
  done.
Qed.

Lemma cleanup_completed_tasks_antitone_witness :
  (twenty_four_hours <= twenty_five_hours)%Z ∧
  tasks (cleanup_completed_tasks twenty_four_hours aged_scheduler) !! "task_d"
    = Some 3%nat.
Proof.
  assert (twenty_four_hours <= twenty_five_hours)%Z as Hle by (by vm_compute).
  split; [exact Hle|].
  apply (cleanup_completed_tasks_antitone aged_scheduler _ _ "task_d" Hle).
  by vm_compute.
Defined.

(** ** Scheduling: registration, queue and task ids *)

Lemma schedule_task_rest fmt td now s :
  let s' := fst (schedule_task fmt td now s) in
  task_status_stats s'
    = <[new_task_id fmt now (size (tasks s)) := PENDING]> (task_status_stats s) ∧
  total_scheduled (schedule_stats s') = (total_scheduled (schedule_stats s) + 1)%Z ∧
  agent_pool s' = agent_pool s ∧ resource_pool s' = resource_pool s.
Proof.
  unfold schedule_task, mbind, M_bind, gets, modify, queue_put, mret, M_ret. simpl.
  by destruct (queue_insert _ _).
Qed.

Lemma schedule_task_new_object fmt td now s :
  objs (fst (schedule_task fmt td now s)) =
  objs s ++ [ParallelTask_new (new_task_id fmt now (size (tasks s)))
               (default "unknown" (td_task_type td))
               (default EmptyString (td_command td))
               (default [] (td_args td))
               (default [] (td_kwargs td))
               (default 0%Z (td_priority td))
               PENDING now
               (Some (default [] (td_dependencies td)))
               (default 604800%Z (td_max_wait_time td))
               (Some (default [] (td_resource_requirements td)))].
Proof.
  unfold schedule_task, mbind, M_bind, gets, modify, queue_put, mret, M_ret. simpl.
  by destruct (queue_insert _ _).
Qed.


(** X15. [schedule_task] registers the task whether or not the insertion
    into the queue raises: afterwards the task table resolves the new id
    to a Pending task created at the instant of the call, with the
    submitted fields and the defaults of the absent ones, the status index
    holds Pending for it, the counter of scheduled tasks is one higher,
    and the entries under every other id are as before. *)
Theorem schedule_task_registers (strftime_YmdHMS : Z → string) (task_data : TaskData)
    (now : datetime) (s : ParallelTaskScheduler) :
  let id := new_task_id strftime_YmdHMS now (size (tasks s)) in
  let s' := fst (schedule_task strftime_YmdHMS task_data now s) in
  (∃ task, tasks_get s' id = Some task ∧
     task_id task = id ∧ status task = PENDING ∧ created_at task = now ∧
     started_at task = None ∧ completed_at task = None ∧
     task_type task = default "unknown" (td_task_type task_data) ∧
     priority task = default 0%Z (td_priority task_data) ∧
     dependencies task = default [] (td_dependencies task_data) ∧
     max_wait_time task = default 604800%Z (td_max_wait_time task_data)) ∧
  task_status_stats s' !! id = Some PENDING ∧
  total_scheduled (schedule_stats s')
    = (total_scheduled (schedule_stats s) + 1)%Z ∧
  (∀ k, k ≠ id → tasks s' !! k = tasks s !! k ∧
                 task_status_stats s' !! k = task_status_stats s !! k) ∧
  agent_pool s' = agent_pool s ∧ resource_pool s' = resource_pool s.
Proof.
  intros id s'.
  destruct (schedule_task_rest strftime_YmdHMS task_data now s)
    as (Hstats & Hcount & Hpool & Hres).
  subst s'. unfold tasks_get.
  rewrite schedule_task_tasks, schedule_task_new_object, Hstats. fold id.
  rewrite !lookup_insert_eq. cbn [mbind option_bind].
  rewrite list_lookup_middle by done.
  split; [eexists; split; [reflexivity|]; by repeat split|].
  repeat split; try done.
  all: by rewrite lookup_insert_ne.
Qed.

Lemma queue_insert_strict e q :
  strictly_sorted q →
  (∀ x, x ∈ q → x.1 ≠ e.1) →
  ∃ q', queue_insert e q = Ok q' ∧ q' ≡ₚ e :: q ∧ strictly_sorted q'.
Proof.
  unfold strictly_sorted. induction 1 as [|x q Hq IH Hx]; intros Hne.
  - exists [e]. repeat split; [done|]. repeat constructor.
  - cbn [queue_insert]. unfold entry_lt.
    assert (x.1 ≠ e.1) as Hxe by (apply Hne; left).
    destruct (Z.ltb_spec e.1 x.1) as [Hlt|Hge]; cbn [mbind Exc_bind].
    + eexists. repeat split; [done|]. constructor; [by constructor|].
      constructor; [done|]. eapply Forall_impl; [exact Hx|]. simpl. lia.
    + destruct (Z.ltb_spec x.1 e.1) as [Hlt|Hge']; [|lia]. cbn [mbind Exc_bind].
      destruct IH as (q' & -> & Hperm & Hsorted).
      { intros y Hy. apply Hne. by right. }
      cbn [mbind Exc_bind]. eexists. split; [done|]. split.
      * rewrite Hperm. apply Permutation_swap.
      * constructor; [done|]. rewrite Hperm. by constructor.
Qed.

(** X16. On a queue held in strictly increasing order of priority with no
    entry of the new task's priority, [schedule_task] returns the new id,
    the queue afterwards holds the entries it held and the entry of the
    new task, and is again in strictly increasing order: no two tasks are
    compared. *)
Theorem schedule_task_enqueues (strftime_YmdHMS : Z → string) (task_data : TaskData)
    (now : datetime) (s : ParallelTaskScheduler) :
  strictly_sorted (task_queue s) →
  (∀ x, x ∈ task_queue s → x.1 ≠ (- default 0 (td_priority task_data))%Z) →
  let s' := fst (schedule_task strftime_YmdHMS task_data now s) in
  snd (schedule_task strftime_YmdHMS task_data now s)
    = Ok (new_task_id strftime_YmdHMS now (size (tasks s))) ∧
  task_queue s' ≡ₚ
    (- default 0 (td_priority task_data), length (objs s))%Z :: task_queue s ∧
  strictly_sorted (task_queue s').
Proof.
  intros Hs Hne s'.
  destruct (queue_insert_strict
              (- default 0 (td_priority task_data), length (objs s))%Z
              (task_queue s) Hs Hne) as (q' & Hq & Hperm & Hsorted).
  subst s'. rewrite (schedule_task_returns _ _ _ _ q' Hq).
  by rewrite (schedule_task_task_queue _ _ _ _ q' Hq).
Qed.

Lemma schedule_task_enqueues_witness :
  strictly_sorted (task_queue crowded_scheduler) ∧
  snd (schedule_task seconds_stamp (submission "shell" 0 None) 0%Z crowded_scheduler)
  = Ok (new_task_id seconds_stamp 0%Z (size (tasks crowded_scheduler))).
Proof.
  assert (strictly_sorted (task_queue crowded_scheduler)) as H.
  { unfold strictly_sorted. vm_compute. repeat constructor. }
  split; [exact H|].
  refine (proj1 (schedule_task_enqueues seconds_stamp (submission "shell" 0 None) 0%Z
                   crowded_scheduler H _)).
  intros x Hx. vm_compute in Hx.
  repeat (apply elem_of_cons in Hx as [->|Hx]; [discriminate|]).
  by apply elem_of_nil in Hx.
Defined.



Lemma schedule_task_returns_inv fmt td now s id :
  snd (schedule_task fmt td now s) = Ok id →
  id = new_task_id fmt now (size (tasks s)).
Proof.
  unfold schedule_task, mbind, M_bind, gets, modify, queue_put, mret, M_ret.
  cbn [fst snd]. destruct (queue_insert _ _); cbn [fst snd]; congruence.
Qed.

Lemma new_task_id_inj fmt now1 now2 n m :
  (now1 `div` 1000000 = now2 `div` 1000000)%Z →
  new_task_id fmt now1 n = new_task_id fmt now2 m ↔ n = m.
Proof.
  intros Hsec. unfold new_task_id. rewrite Hsec. split; [|by intros ->].
  intros H. do 3 apply (inj (String.app _)) in H.
  by apply (inj pretty) in H.
Qed.

(** X18. Two calls of [schedule_task] within the same clock second that
    return ids return the same id exactly when the task tables they start
    from hold the same number of entries. *)
Theorem schedule_task_ids_equal_iff (strftime_YmdHMS : Z → string)
    (td1 td2 : TaskData) (now1 now2 : datetime) (s1 s2 : ParallelTaskScheduler)
    (id1 id2 : string) :
  (now1 `div` 1000000 = now2 `div` 1000000)%Z →
  snd (schedule_task strftime_YmdHMS td1 now1 s1) = Ok id1 →
  snd (schedule_task strftime_YmdHMS td2 now2 s2) = Ok id2 →
  id1 = id2 ↔ size (tasks s1) = size (tasks s2).
Proof.
  intros Hsec ->%schedule_task_returns_inv ->%schedule_task_returns_inv.
  by apply new_task_id_inj.
Qed.

Lemma schedule_task_ids_equal_iff_witness :
  new_task_id seconds_stamp 0%Z 0 = new_task_id seconds_stamp 500000%Z 0
  ↔ size (tasks fresh_scheduler) = size (tasks crowded_scheduler).
Proof.
  apply (schedule_task_ids_equal_iff seconds_stamp
           (submission "shell" 1 None) (submission "shell" 0 None)
           0%Z 500000%Z fresh_scheduler crowded_scheduler).
  - reflexivity.
  - by vm_compute.
  - by vm_compute.
Defined.

(** ** Dependencies: [wait_for_dependencies] *)

Lemma wait_for_dependencies_loop_settled deps task now s :
  Forall (taken_as_settled s) deps →
  wait_for_dependencies_loop deps task now s = (s, Ok true).
Proof.
  induction 1 as [|dep deps Hdep _ IH]; [done|].
  cbn [wait_for_dependencies_loop]. unfold mbind at 1, M_bind at 1, gets at 1.
  unfold taken_as_settled in Hdep.
  destruct (tasks s !! dep) as [r|]; [|exact IH].
  destruct Hdep as (dep_task & Ho & Hst).
  unfold mbind at 1, M_bind at 1. rewrite (get_task_run _ _ _ Ho).
  by rewrite decide_False by done.
Qed.

(** X19. [wait_for_dependencies] answers [True] and changes nothing when
    every dependency id of the task is without a record in the task table
    or names a task that is not Pending, be it Running, Failed or
    Cancelled. *)
Theorem wait_for_dependencies_lenient (s : ParallelTaskScheduler) (task : nat)
    (t : ParallelTask) (now : datetime) :
  objs s !! task = Some t →
  Forall (taken_as_settled s) (dependencies t) →
  wait_for_dependencies task now s = (s, Ok true).
Proof.
  intros Ho Hdeps. unfold wait_for_dependencies, mbind, M_bind.
  rewrite (get_task_run _ _ _ Ho). by apply wait_for_dependencies_loop_settled.
Qed.

Lemma wait_for_dependencies_lenient_witness :
  wait_for_dependencies 0 1 crowded_scheduler = (crowded_scheduler, Ok true).
Proof.
  apply (wait_for_dependencies_lenient crowded_scheduler 0 blocked_task 1%Z).
  - reflexivity.
  - repeat constructor.
Defined.

Lemma wait_for_dependencies_loop_pending before dep rest task now s r dep_task :
  Forall (taken_as_settled s) before →
  tasks s !! dep = Some r →
  objs s !! r = Some dep_task →
  status dep_task = PENDING →
  wait_for_dependencies_loop (before ++ dep :: rest) task now s
  = (set_objs (λ l, <[r := failed_by_execute_task now dep_task]> l) s,
     Raise (NameError "task_id")).
Proof.
  intros Hbefore Ht Ho Hst. induction Hbefore as [|d before Hd _ IH].
  - cbn [app wait_for_dependencies_loop]. unfold mbind at 1, M_bind at 1, gets at 1.
    rewrite Ht. unfold mbind at 1, M_bind at 1. rewrite (get_task_run _ _ _ Ho).
    rewrite decide_True by done.
    unfold mbind at 1, M_bind at 1. by rewrite (execute_task_run _ _ _ _ Ho).
  - cbn [app wait_for_dependencies_loop]. unfold mbind at 1, M_bind at 1, gets at 1.
    unfold taken_as_settled in Hd.
    destruct (tasks s !! d) as [r'|]; [|exact IH].
    destruct Hd as (d_task & Ho' & Hst').
    unfold mbind at 1, M_bind at 1. rewrite (get_task_run _ _ _ Ho').
    by rewrite decide_False by done.
Qed.

(** X20. [wait_for_dependencies] never starts a dependency with success:
    at the first dependency whose record is Pending the call of
    [execute_task] raises [NameError], which leaves the method, and the
    dependency is left Failed; the dependencies after it are not looked
    at. *)
Theorem wait_for_dependencies_pending (s : ParallelTaskScheduler) (task : nat)
    (t : ParallelTask) (now : datetime) (before rest : list string) (dep : string)
    (r : nat) (dep_task : ParallelTask) :
  objs s !! task = Some t →
  dependencies t = before ++ dep :: rest →
  Forall (taken_as_settled s) before →
  tasks s !! dep = Some r →
  objs s !! r = Some dep_task →
  status dep_task = PENDING →
  let s' := fst (wait_for_dependencies task now s) in
  snd (wait_for_dependencies task now s) = Raise (NameError "task_id") ∧
  status <$> tasks_get s' dep = Some FAILED ∧
  (∀ other, other ≠ r → objs s' !! other = objs s !! other) ∧
  tasks s' = tasks s.
Proof.
  intros Ho Hdeps Hbefore Ht Hor Hst s'. subst s'.
  unfold wait_for_dependencies, mbind, M_bind. rewrite (get_task_run _ _ _ Ho), Hdeps.
  rewrite (wait_for_dependencies_loop_pending _ _ _ _ _ _ _ _ Hbefore Ht Hor Hst).
  cbn [fst snd]. split; [done|]. split.
  - unfold tasks_get. cbn [tasks set_objs]. rewrite Ht. cbn [mbind option_bind].
    by rewrite (objs_insert_lookup _ _ _ _ Hor).
  - split; [|done]. intros other Hne. simpl. by apply list_lookup_insert_ne.
Qed.

Lemma wait_for_dependencies_pending_witness :
  snd (wait_for_dependencies 1 1 chained_scheduler) = Raise (NameError "task_id").
Proof.
  refine (proj1 (wait_for_dependencies_pending chained_scheduler 1 dependent_task 1%Z
                   ["no_such_task"] [] "task_y" 0%nat file_task _ _ _ _ _ _)).
  - reflexivity.
  - reflexivity.
  - repeat constructor.
  - by vm_compute.
  - reflexivity.
  - reflexivity.
Defined.

(** ** Agents after a task: [update_agent_status_after_task] *)

Lemma preserves_metric (I : ParallelAgent → Prop) k : preserves I (metric k).
Proof. intros a H. unfold metric. by destruct (dict_item _ _). Qed.

Lemma update_agent_metrics_frame (I : ParallelAgent → Prop) execution_time success now :
  agent_frame I → preserves I (update_agent_metrics execution_time success now).
Proof.
  intros [Hpm Hh]. unfold update_agent_metrics.
  assert (∀ k v, preserves I (set_metric k v)) as Hset.
  { intros k v. apply preserves_modify. intros a. apply Hpm. }
  apply preserves_bind; [apply preserves_gets|]. intros pm.
  apply preserves_bind.
  { apply preserves_if; [apply preserves_ret|]. apply preserves_modify. intros a. apply Hpm. }
  intros [].
  apply preserves_bind; [apply preserves_metric|]. intros old_response_time.
  apply preserves_bind; [apply preserves_if; [apply Hset|apply preserves_ret]|]. intros [].
  apply preserves_bind; [apply preserves_metric|]. intros old_success_rate.
  apply preserves_bind; [apply preserves_if; [apply Hset|apply preserves_ret]|]. intros [].
  apply preserves_bind.
  { apply preserves_if; [|apply preserves_ret].
    apply preserves_bind; [apply preserves_raise|]. intros response_time.
    apply preserves_bind; [apply preserves_lift_exc|]. intros d.
    apply preserves_lift_exc. }
  intros efficiency.
  apply preserves_bind; [apply preserves_metric|]. intros old_efficiency.
  apply preserves_bind; [apply Hset|]. intros [].
  apply preserves_bind; [apply preserves_gets|]. intros a0.
  apply preserves_bind; [apply preserves_modify; intros a; apply Hh|]. intros [].
  apply preserves_bind; [apply preserves_gets|]. intros h.
  apply preserves_if; [|apply preserves_ret].
  apply preserves_modify. intros a. apply Hh.
Qed.

(** X21. [update_agent_metrics] writes to the metrics and to the history
    only: whether it returns or raises, the agent's id, type, status,
    current task, supported task types, capacity and [last_activity] are
    those it had before the call. *)
Theorem update_agent_metrics_writes_metrics_only (execution_time : Q) (success : bool)
    (now : datetime) (agent : ParallelAgent) :
  let agent' := fst (update_agent_metrics execution_time success now agent) in
  agent_id agent' = agent_id agent ∧
  agent_type agent' = agent_type agent ∧
  agent_status agent' = agent_status agent ∧
  current_task agent' = current_task agent ∧
  supported_task_types agent' = supported_task_types agent ∧
  max_concurrent_tasks agent' = max_concurrent_tasks agent ∧
  last_activity agent' = last_activity agent.
Proof.
  intros agent'. subst agent'.
  apply (preserves_fst
           (λ a, agent_id a = agent_id agent ∧ agent_type a = agent_type agent ∧
                 agent_status a = agent_status agent ∧
                 current_task a = current_task agent ∧
                 supported_task_types a = supported_task_types agent ∧
                 max_concurrent_tasks a = max_concurrent_tasks agent ∧
                 last_activity a = last_activity agent)); [|done].
  apply update_agent_metrics_frame. by split.
Qed.

(** X22. The loop of [update_agent_status_after_task] keeps the agents and
    their order, leaves every agent that does not hold the task as it was
    and, when it returns, leaves no agent holding the task. *)
Theorem update_agents_after_task_spec (agents : dict ParallelAgent) (task : ParallelTask)
    (now : datetime) :
  let result := update_agents_after_task agents task now in
  map fst (fst result) = map fst agents ∧
  (∀ i k agent, agents !! i = Some (k, agent) →
                current_task agent ≠ Some (task_id task) →
                fst result !! i = Some (k, agent)) ∧
  (snd result = Ok tt → unheld (task_id task) (fst result)).
Proof.
  induction agents as [|[k agent] agents IH]; cbn [update_agents_after_task].
  - repeat split; [done|]. intros _. constructor.
  - cbn zeta in IH. destruct IH as (IHk & IHo & IHu).
    assert (∀ agent', (current_task agent ≠ Some (task_id task) → agent' = agent) →
              current_task agent' ≠ Some (task_id task) →
              let result :=
                let '(rest', r) := update_agents_after_task agents task now in
                ((k, agent') :: rest', r) in
              map fst (fst result) = k :: map fst agents ∧
              (∀ i k' a, ((k, agent) :: agents) !! i = Some (k', a) →
                         current_task a ≠ Some (task_id task) →
                         fst result !! i = Some (k', a)) ∧
              (snd result = Ok tt → unheld (task_id task) (fst result))) as Hstep.
    { intros agent' Hsame Hne.
      destruct (update_agents_after_task agents task now) as [rest' r].
      cbn [fst snd] in *. split; [simpl; by rewrite IHk|]. split.
      - intros [|i] k' a Hl Hfree; simplify_eq/=; [by rewrite Hsame|by eapply IHo].
      - intros Hr. constructor; [done|by apply IHu]. }
    destruct (decide (current_task agent = Some (task_id task))) as [Hheld|Hfree].
    + pose proof (update_agent_metrics_frame (λ a, current_task a = None)) as Hcur.
      destruct (started_at task) as [started|], (completed_at task) as [completed|].
      2,3,4: by apply Hstep.
      set (idle := set_agent_status IDLE (set_current_task None agent)).
      specialize (Hcur (total_seconds completed started)
                    (bool_decide (status task = COMPLETED)) now ltac:(by split)
                    idle eq_refl).
      destruct (update_agent_metrics _ _ _ idle) as [agent' [[]|e]].
      * apply Hstep; [done|]. simpl in Hcur. by rewrite Hcur.
      * cbn [fst snd]. split; [done|]. split; [|done].
        intros [|i] k' a' Hl Hne; simplify_eq/=; done.
    + by apply Hstep.
Qed.

(** ** The pool report: [get_agent_pool_status] *)




(** X23. In the report of [get_agent_pool_status] the Busy and the Idle
    agents are counted apart and never exceed the agents of the pool; the
    agents in the states Error and Offline make up the difference. *)
Theorem agent_pool_status_counts (s : ParallelTaskScheduler) :
  let report := get_agent_pool_status s in
  (0 <= active_agents report)%Z ∧ (0 <= idle_agents report)%Z ∧
  (active_agents report + idle_agents report
   + count_status ERROR (agent_pool s) + count_status OFFLINE (agent_pool s)
   = total_agents report)%Z.
Proof.
  unfold get_agent_pool_status. cbn [active_agents idle_agents total_agents].
  unfold count_status. repeat split; [lia..|].
  induction (agent_pool s) as [|[k a] d IH]; [done|].
  cbn [List.filter snd]. destruct (agent_status a); cbn [bool_decide decide_rel];
    repeat (case_bool_decide; try done); cbn [length]; lia.
Qed.



(** ** The resource pool *)

(** X25. A pool built without a worker count, or with the count 0, takes
    twice the CPU count, at most 32 and 2 when the CPU count is unknown;
    every worker is free at the start and no memory is allocated. *)
Theorem ResourcePool_init_default (max_memory_percent : option Q) (cpu_count : option Z)
    (psutil : option MemoryStats) :
  (∀ n, cpu_count = Some n → (0 < n)%Z) →
  let pool := ResourcePool_init None max_memory_percent cpu_count psutil in
  max_workers pool = Z.min 32 (2 * default 1 cpu_count)%Z ∧
  (2 <= max_workers pool <= 32)%Z ∧
  available_workers pool = max_workers pool ∧
  (allocated_memory pool == 0)%Q ∧
  ResourcePool_init (Some 0%Z) max_memory_percent cpu_count psutil = pool.
Proof.
  intros Hcpu pool. subst pool. unfold ResourcePool_init.
  cbn [max_workers available_workers allocated_memory Z_or Z.eqb].
  assert (Z_or cpu_count 1 = default 1%Z cpu_count ∧ (0 < default 1 cpu_count)%Z)
    as [-> Hpos].
  { destruct cpu_count as [n|]; simpl; [|done].
    specialize (Hcpu n eq_refl). destruct (Z.eqb_spec n 0); [lia|done]. }
  repeat split; try done; lia.
Qed.

Lemma ResourcePool_init_default_witness :
  max_workers (ResourcePool_init None None (Some 1%Z) None) = 2%Z.
Proof.
  refine (proj1 (ResourcePool_init_default None (Some 1%Z) None _)).
  intros n [= <-]. done.
Defined.

(** X26. Admission is monotone in the memory asked for: on a pool whose
    total memory is positive, a requirement that is admitted stays
    admitted when the memory it names is lowered. *)
Theorem can_allocate_task_monotone (self : ResourcePool) (r r' : dict Q) :
  (0 < mem_total (memory_stats self))%Q →
  (dict_get_default r' "memory_mb" 10 <= dict_get_default r "memory_mb" 10)%Q →
  can_allocate_task self r = Ok true →
  can_allocate_task self r' = Ok true.
Proof.
  intros Htotal Hle. unfold can_allocate_task.
  destruct (available_workers self <=? 0)%Z; [done|].
  rewrite !py_div_nonzero by lra. cbn [mbind Exc_bind].
  intros [= H]. f_equal. apply Qle_bool_iff in H. apply Qle_bool_iff.
  eapply Qle_trans; [|exact H].
  apply Qplus_le_r. apply Qmult_le_compat_r; [|done].
  apply Qmult_le_compat_r; [|by apply Qlt_le_weak, Qinv_lt_0_compat].
  lra.
Qed.

Lemma can_allocate_task_monotone_witness :
  can_allocate_task sample_pool [] = Ok true.
Proof.
  apply (can_allocate_task_monotone sample_pool [("memory_mb", 100%Q)] []).
  - reflexivity.
  - discriminate.
  - by vm_compute.
Defined.

(** X27. [allocate_resources] followed by [release_resources]: when a
    worker is free the pool is back as it was and the task is left
    Completed, whatever its status before and although nothing ran it;
    when no worker is free the allocation is refused, the task keeps its
    status unless it is Running, and the release still adds a worker. *)
Theorem allocate_release_round_trip (self : ResourcePool) (task : ParallelTask) :
  let '(allocated, task', granted) := allocate_resources self task in
  let '(released, task'') := release_resources allocated task' in
  if (0 <? available_workers self)%Z then
    granted = true ∧ released = self ∧ status task'' = COMPLETED
  else
    granted = false ∧
    available_workers released = (available_workers self + 1)%Z ∧
    (status task ≠ RUNNING → task'' = task).
Proof.
  unfold allocate_resources, release_resources.
  destruct (0 <? available_workers self)%Z; cbn.
  - repeat split. destruct self. unfold with_available_workers. simpl. f_equal. lia.
  - repeat split. intros H. by rewrite decide_False.
Qed.

(** ** The running average: [update_average_execution_time] *)


(** ** The convenience call: [execute_parallel_task] *)

Lemma new_task_id_nonempty fmt now n : String.eqb (new_task_id fmt now n) EmptyString = false.
Proof. reflexivity. Qed.

(** X29. The module-level [execute_parallel_task] does not return a
    result. On a queue held in strictly increasing order of priority with
    no entry of the new task's priority the task enters the queue, and
    [execute_task] then raises [NameError]: the task is left Failed in the
    task table, counted as scheduled and still in the queue. *)
Theorem execute_parallel_task_raises (strftime_YmdHMS : Z → string)
    (task_data : TaskData) (now : datetime) (s : ParallelTaskScheduler) :
  strictly_sorted (task_queue s) →
  (∀ x, x ∈ task_queue s → x.1 ≠ (- default 0 (td_priority task_data))%Z) →
  let id := new_task_id strftime_YmdHMS now (size (tasks s)) in
  let call := execute_parallel_task strftime_YmdHMS task_data now s in
  snd call = Raise (NameError "task_id") ∧
  status <$> tasks_get (fst call) id = Some FAILED ∧
  total_scheduled (schedule_stats (fst call))
    = (total_scheduled (schedule_stats s) + 1)%Z ∧
  task_queue (fst call) ≡ₚ
    (- default 0 (td_priority task_data), length (objs s))%Z :: task_queue s.
Proof.
  intros Hsorted Hne id call.
  destruct (queue_insert_strict
              (- default 0 (td_priority task_data), length (objs s))%Z
              (task_queue s) Hsorted Hne) as (q & Hq & Hperm & _).
  pose proof (schedule_task_tasks strftime_YmdHMS task_data now s) as Htasks.
  pose proof (schedule_task_new_object strftime_YmdHMS task_data now s) as Hobjs.
  destruct (schedule_task_rest strftime_YmdHMS task_data now s) as (_ & Hcount & _).
  fold id in Htasks, Hobjs.
  set (new := ParallelTask_new id _ _ _ _ _ _ _ _ _ _) in Hobjs.
  assert (objs (fst (schedule_task strftime_YmdHMS task_data now s)) !! length (objs s)
          = Some new) as Ho.
  { rewrite Hobjs. by apply list_lookup_middle. }
  pose proof (schedule_task_returns strftime_YmdHMS _ now _ _ Hq) as Hret.
  pose proof (schedule_task_task_queue strftime_YmdHMS _ now _ _ Hq) as Hqueue.
  fold id in Hret.
  assert (call = (set_objs (λ l, <[length (objs s) := failed_by_execute_task now new]> l)
                    (fst (schedule_task strftime_YmdHMS task_data now s)),
                  Raise (NameError "task_id"))) as ->.
  { subst call. unfold execute_parallel_task, mbind, M_bind.
    destruct (schedule_task strftime_YmdHMS task_data now s) as [s1 out].
    cbn [fst snd] in *. subst out.
    replace (negb (id =? EmptyString)%string) with true by reflexivity.
    unfold gets. rewrite Htasks, lookup_insert_eq.
    by rewrite (execute_task_run _ _ _ _ Ho). }
  cbn [fst snd]. split; [done|]. split; [|split].
  - unfold tasks_get. cbn [tasks set_objs]. rewrite Htasks, lookup_insert_eq.
    cbn [mbind option_bind]. by rewrite (objs_insert_lookup _ _ _ _ Ho).
  - exact Hcount.
  - cbn [task_queue set_objs]. by rewrite Hqueue.
Qed.

Lemma execute_parallel_task_raises_witness :
  snd (execute_parallel_task seconds_stamp (submission "shell" 0 None) 0%Z
         crowded_scheduler)
  = Raise (NameError "task_id").
Proof.
  refine (proj1 (execute_parallel_task_raises seconds_stamp (submission "shell" 0 None)
                   0%Z crowded_scheduler _ _)).
  - unfold strictly_sorted. vm_compute. repeat constructor.
  - intros x Hx. vm_compute in Hx.
    repeat (apply elem_of_cons in Hx as [->|Hx]; [discriminate|]).
    by apply elem_of_nil in Hx.
Defined.

(** ** A tick without a free worker *)

Lemma queue_insert_front e x q :
  (e.1 < x.1)%Z → queue_insert e (x :: q) = Ok (e :: x :: q).
Proof.
  intros H. cbn [queue_insert]. unfold entry_lt.
  by destruct (Z.ltb_spec e.1 x.1); [|lia].
Qed.

(** X30. A tick that finds no free worker changes nothing: on a queue
    held in strictly increasing order of priority, the first task is
    taken off the queue, refused by [can_allocate_task] before the memory
    is looked at, and put back in front; no task is dispatched, and the
    scheduler is as it was. *)
Theorem tick_without_free_worker (s : ParallelTaskScheduler) (now : datetime) :
  (available_workers (resource_pool s) <= 0)%Z →
  strictly_sorted (task_queue s) →
  (∀ priority task, head (task_queue s) = Some (priority, task) →
                    is_Some (objs s !! task)) →
  process_ready_tasks now s = (s, Ok tt).
Proof.
  intros Hbusy Hsorted Hhead. unfold process_ready_tasks, mbind, M_bind, gets.
  destruct (task_queue s) as [|[priority task] q] eqn:Hq; [done|].
  destruct (Hhead priority task eq_refl) as [t Ht].
  cbn [drain]. unfold mbind, M_bind, modify, gets, lift_exc.
  rewrite (get_task_run (set_task_queue q s) task t Ht).
  change (resource_pool (set_task_queue q s)) with (resource_pool s).
  unfold can_allocate_task.
  destruct (Z.leb_spec (available_workers (resource_pool s)) 0); [|lia].
  unfold queue_put. change (task_queue (set_task_queue q s)) with q.
  assert (queue_insert (priority, task) q = Ok ((priority, task) :: q)) as ->.
  { destruct q as [|x q]; [done|]. apply queue_insert_front.
    apply StronglySorted_inv in Hsorted as [_ Hall].
    by apply Forall_cons in Hall as [? _]. }
  cbn. destruct s. simpl in *. by rewrite Hq.
Qed.

Lemma tick_without_free_worker_witness :
  process_ready_tasks 1 saturated_scheduler = (saturated_scheduler, Ok tt).
Proof.
  apply tick_without_free_worker.
  - discriminate.
  - unfold strictly_sorted. vm_compute. repeat constructor.
  - intros priority task [= <- <-]. by eexists.
Defined.
